(** * water-reach-tracer: snapping, tracing and publishing of river reaches

    A shallow embedding of the notebook code of the repository
    (resources/epa_water_prototyping.ipynb and
    resources/03_reach_layer_geometry.ipynb) and the properties of it
    that the specification states.

    The Python code talks to two HTTP services of the EPA WATERS
    platform and reads their JSON answers through untyped subscripts.
    The embedding keeps that shape: JSON values are an inductive type,
    a subscript is a fallible operation that raises the Python error the
    interpreter would raise, and the functions that call [requests.get]
    thread a [World] that holds the remote service, the requests sent so
    far and what was printed. *)

From Stdlib Require Import QArith Ascii Lia.
From stdpp Require Import base option list strings gmap pretty.
From Equations Require Import Equations.

Set Warnings "-register-all".
Local Open Scope Z_scope.
Local Open Scope string_scope.

(** ** Python errors and results *)

(** The exceptions the modelled code can raise.  [TraceException] is the
    class of the notebook; the others are built in. *)
Inductive PyError : Type :=
| NameError (name : string)
| UnboundLocalError (name : string)
| KeyError (key : string)
| IndexError
| TypeError
| AttributeError (attr : string)
| ValueError
| TraceException (msg : string).

Inductive result (A : Type) : Type :=
| Ok (a : A)
| Err (e : PyError).
Arguments Ok {A} a.
Arguments Err {A} e.

Definition is_err {A} (r : result A) : bool :=
  match r with Ok _ => false | Err _ => true end.

Definition is_trace_exception (e : PyError) : bool :=
  match e with TraceException _ => true | _ => false end.

#[global] Instance result_ret : MRet result := fun _ a => Ok a.
#[global] Instance result_bind : MBind result := fun _ _ k r =>
  match r with
  | Ok a => k a
  | Err e => Err e
  end.

(** ** JSON values, as [json.loads] builds them *)

(** An object is kept as the list of its entries in insertion order (the
    order a Python dict iterates in); a lookup takes the first entry of
    the key. *)
Inductive json : Type :=
| JNull
| JBool (b : bool)
| JNum (q : Q)
| JStr (s : string)
| JArr (items : list json)
| JObj (entries : list (string * json)).

Fixpoint assoc {V} (k : string) (kvs : list (string * V)) : option V :=
  match kvs with
  | [] => None
  | (k', v) :: rest => if String.eqb k k' then Some v else assoc k rest
  end.

(** [j[k]] for a string key [k]. *)
Definition subscript (j : json) (k : string) : result json :=
  match j with
  | JObj kvs =>
      match assoc k kvs with
      | Some v => Ok v
      | None => Err (KeyError k)
      end
  | _ => Err TypeError
  end.

(** A [string] holds the UTF-8 bytes of a text.  Python indexes and
    iterates a [str] by code point, so the bytes of one UTF-8 sequence
    belong to one character.  [utf8_width c] is the number of bytes of
    the sequence that the byte [c] starts. *)
Definition utf8_width (c : ascii) : nat :=
  let n := nat_of_ascii c in
  if (n <? 192)%nat then 1%nat
  else if (n <? 224)%nat then 2%nat
  else if (n <? 240)%nat then 3%nat
  else 4%nat.

(** [pending] holds the bytes of a started sequence, [need] counts the
    bytes of it still to come. *)
Fixpoint chars_from (pending : string) (need : nat) (s : string) : list json :=
  match s with
  | EmptyString =>
      match pending with
      | EmptyString => []
      | _ => [JStr pending]
      end
  | String c rest =>
      match need with
      | O =>
          match utf8_width c with
          | S (S more) => chars_from (String c EmptyString) (S more) rest
          | _ => JStr (String c EmptyString) :: chars_from EmptyString 0 rest
          end
      | S more =>
          let pending' := pending ++ String c EmptyString in
          match more with
          | O => JStr pending' :: chars_from EmptyString 0 rest
          | S _ => chars_from pending' more rest
          end
      end
  end.

(** The one-character strings a Python string is made of. *)
Definition chars_of (s : string) : list json := chars_from EmptyString 0 s.

(** [j[i]] for a literal index [i >= 0]: element [i] of a list, character
    [i] of a string; a dict has no integer keys. *)
Definition subscript_index (j : json) (i : nat) : result json :=
  match j with
  | JArr items =>
      match items !! i with
      | Some v => Ok v
      | None => Err IndexError
      end
  | JStr s =>
      match chars_of s !! i with
      | Some v => Ok v
      | None => Err IndexError
      end
  | JObj _ => Err (KeyError (pretty (Z.of_nat i)))
  | _ => Err TypeError
  end.

(** Truth value of a JSON value in an [if]. *)
Definition truthy (j : json) : bool :=
  match j with
  | JNull => false
  | JBool b => b
  | JNum q => negb (Qeq_bool q 0)
  | JStr s => negb (String.eqb s "")
  | JArr items => negb (Nat.eqb (length items) 0)
  | JObj kvs => negb (Nat.eqb (length kvs) 0)
  end.

(** The elements a [for] loop (or [itertools.chain]) sees. *)
Definition py_iter (j : json) : result (list json) :=
  match j with
  | JArr items => Ok items
  | JStr s => Ok (chars_of s)
  | JObj kvs => Ok (map (fun kv => JStr (fst kv)) kvs)
  | _ => Err TypeError
  end.

(** [[f(x) for x in xs]] with a fallible [f]: the first error ends it. *)
Fixpoint comprehension {A B} (f : A -> result B) (xs : list A) : result (list B) :=
  match xs with
  | [] => Ok []
  | x :: rest =>
      y ← f x;
      ys ← comprehension f rest;
      Ok (y :: ys)
  end.

(** ** Geometries, requests and the remote services *)

(** An [arcgis.geometry.Geometry]: the code builds points from two
    coordinates of a JSON answer and a polyline from one path; both carry
    the spatial reference [{"wkid": 4326}]. *)
Inductive Geometry : Type :=
| GPoint (x y : json) (wkid : Z)
| GPolyline (paths : list (list json)) (wkid : Z).

(** A value of a query-string dict.  [PPoint x y] stands for the text
    ["POINT({} {})".format(x, y)]. *)
Inductive param : Type :=
| PStr (s : string)
| PBool (b : bool)
| PInt (z : Z)
| PVal (j : json)
| PPoint (x y : Q).

Record Request : Type := mkRequest {
  req_url : string;
  req_params : gmap string param
}.

(** What [requests.get] returns: the status and, when the body parses as
    JSON, its value ([.json()] raises otherwise). *)
Record Response : Type := mkResponse {
  status_code : Z;
  body : option json
}.

Definition response_json (r : Response) : result json :=
  match body r with
  | Some j => Ok j
  | None => Err ValueError
  end.

(** The world outside the notebook: the service answers the [n]-th
    request (counted from 0) with [service n req]; [sent] lists the
    requests issued so far, oldest first; [stdout] the printed lines.
    Every request is answered: a call of [requests.get] that gets no
    answer (no connection, a timeout) raises an exception of the
    [requests] library that the notebook does not catch, and is not part
    of this model. *)
Record World : Type := mkWorld {
  service : nat -> Request -> Response;
  sent : list Request;
  stdout : list string
}.

Definition requests_get (url : string) (params : gmap string param) (w : World)
  : Response * World :=
  let req := mkRequest url params in
  (service w (length (sent w)) req,
   mkWorld (service w) (sent w ++ [req]) (stdout w)).

Definition print (line : string) (w : World) : World :=
  mkWorld (service w) (sent w) (stdout w ++ [line]).

(** The notebook's global namespace, as far as the functions read it: the
    name [r] is bound or not, and the object it is bound to has a
    [status_code] attribute or not.  No function of the notebook assigns
    a global, so the namespace is constant during a call. *)
Record PyObject : Type := mkObject {
  obj_status_code : option Z
}.

Record Globals : Type := mkGlobals {
  global_r : option PyObject
}.

(** ** Point Snapper *)

Definition point_indexing_url : string :=
  "https://ofmpub.epa.gov/waters10/PointIndexing.Service".

Definition crs84 : string := "SRSNAME=urn:ogc:def:crs:OGC::CRS84".

Definition get_epa_point_indexing (x y : Q) (search_distance : Z)
    (return_geometry : bool) (w : World) : result json * World :=
  let queryString : gmap string param := list_to_map [
    ("pGeometry", PPoint x y);
    ("pGeometryMod", PStr ("WKT," ++ crs84));
    ("pPointIndexingMethod", PStr "DISTANCE");
    ("pPointIndexingMaxDist", PInt search_distance);
    ("pOutputPathFlag", PBool true);
    ("pReturnFlowlineGeomFlag", PBool return_geometry);
    ("optOutCS", PStr crs84);
    ("optOutPrettyPrint", PInt 0);
    ("f", PStr "json")
  ] in
  let '(r, w1) := requests_get point_indexing_url queryString w in
  (response_json r, w1).

(** The dict [get_epa_snap_point] returns; its three keys are fixed, so
    it is a record here. *)
Record SnapPoint : Type := mkSnapPoint {
  snap_geometry : Geometry;
  snap_measure : json;
  snap_id : json
}.

Definition snap_point_keys : list string := ["geometry"; "measure"; "id"].

(** [bool(d)] of that dict: a dict is true when it has a key. *)
Definition snap_point_truthy (p : SnapPoint) : bool :=
  negb (Nat.eqb (length snap_point_keys) 0).

Definition snap_point_of_json (rjson : json) : result SnapPoint :=
  output ← subscript rjson "output";
  end_point ← subscript output "end_point";
  coords ← subscript end_point "coordinates";
  cx ← subscript_index coords 0;
  cy ← subscript_index coords 1;
  output' ← subscript rjson "output";
  flowlines ← subscript output' "ary_flowlines";
  first ← subscript_index flowlines 0;
  fmeasure ← subscript first "fmeasure";
  output'' ← subscript rjson "output";
  flowlines' ← subscript output'' "ary_flowlines";
  first' ← subscript_index flowlines' 0;
  comid ← subscript first' "comid";
  Ok (mkSnapPoint (GPoint cx cy 4326) fmeasure comid).

Definition get_epa_snap_point (x y : Q) (w : World) : result SnapPoint * World :=
  let '(rjson, w1) := get_epa_point_indexing x y 5 false w in
  (rjson ≫= snap_point_of_json, w1).

(** ** Trace Builder *)

Definition upstream_downstream_url : string :=
  "https://ofmpub.epa.gov/waters10/UpstreamDownStream.Service".

Definition trace_query (putin_point takeout_point : SnapPoint) : gmap string param :=
  list_to_map [
    ("pNavigationType", PStr "PP");
    ("pStartComID", PVal (snap_id putin_point));
    ("pStartMeasure", PVal (snap_measure putin_point));
    ("pStopComid", PVal (snap_id takeout_point));
    ("pStopMeasure", PVal (snap_measure takeout_point));
    ("pFlowlinelist", PBool true);
    ("pTraversalSummary", PBool true);
    ("f", PStr "json")
  ].

(** [{:02d}] of a count. *)
Definition pad2 (n : nat) : string :=
  if (n <? 10)%nat then "0" ++ pretty (Z.of_nat n) else pretty (Z.of_nat n).

Definition attempt_failed_line (attempts : nat) (code : Z) : string :=
  "Attempt " ++ pad2 attempts ++ " failed with status code " ++ pretty code.

(** The local variables of [get_epa_trace_response] that the loop
    updates.  [resp] has no value before the first iteration. *)
Record TraceLocals : Type := mkTraceLocals {
  attempts : nat;
  status_code_var : Z;
  resp : option Response
}.

Definition loop_condition (st : TraceLocals) : bool :=
  (attempts st <? 10)%nat && negb (Z.eqb (status_code_var st) 200).

(** The [while] loop.  One iteration sends the request, counts it, and
    then reads [r.status_code]: [r] is not a local of the function (the
    response was bound to [resp]), so the read goes to the global
    namespace.  The loop ends because [attempts] grows towards 10. *)
Equations? trace_loop (G : Globals) (url : string) (queryString : gmap string param)
    (st : TraceLocals) (w : World) : result TraceLocals * World
    by wf (10 - attempts st)%nat lt :=
  trace_loop G url queryString st w with Equations.Prop.Logic.inspect (loop_condition st) := {
    | exist _ false _ => (Ok st, w)
    | exist _ true Hcond with requests_get url queryString w := {
      | pair resp' w1 with global_r G := {
        | None => (Err (NameError "r"), w1)
        | Some r with obj_status_code r := {
          | None => (Err (AttributeError "status_code"), w1)
          | Some code =>
              trace_loop G url queryString
                (mkTraceLocals (S (attempts st)) code (Some resp'))
                (if negb (Z.eqb code 200)
                 then print (attempt_failed_line (S (attempts st)) code) w1
                 else w1)
          }
        }
      }
    }.
Proof.
  unfold loop_condition in Hcond.
  apply andb_prop in Hcond as [Hlt _].
  apply Nat.ltb_lt in Hlt. simpl. lia.
Qed.

Definition get_epa_trace_response (G : Globals) (putin_point takeout_point : SnapPoint)
    (w : World) : result Response * World :=
  let url := upstream_downstream_url in
  let queryString := trace_query putin_point takeout_point in
  let '(out, w1) := trace_loop G url queryString (mkTraceLocals 0 0 None) w in
  (st ← out;
   match resp st with
   | Some response => Ok response
   | None => Err (UnboundLocalError "resp")
   end, w1).

(** [list(itertools.chain.from_iterable(xs))]: every element is iterated
    in turn and the pieces are joined in order. *)
Definition chain_from_iterable (xs : list json) : result (list json) :=
  pieces ← comprehension py_iter xs;
  Ok (concat pieces).

Definition flowlines_traversed (trace_response : Response) : result json :=
  rjson ← response_json trace_response;
  output ← subscript rjson "output";
  subscript output "flowlines_traversed".

Definition feature_coordinates (feature : json) : result json :=
  shape ← subscript feature "shape";
  subscript shape "coordinates".

(** Returns [Ok None] for Python's [None]. *)
Definition epa_trace_resp_to_esri_geom (trace_response : Response)
  : result (option Geometry) :=
  cond ← flowlines_traversed trace_response;
  if truthy cond then
    traversed ← flowlines_traversed trace_response;
    features ← py_iter traversed;
    geom_lists ← comprehension feature_coordinates features;
    geom_list ← chain_from_iterable geom_lists;
    Ok (Some (GPolyline [geom_list] 4326))
  else Ok None.

(** ** Access table *)

(** A row of the access table: the columns the code reads.  The
    [reach_id] column holds strings ([ReachAccessesSDF.from_csv] converts
    it). *)
Record AccessRow : Type := mkAccessRow {
  row_reach_id : string;
  row_type : string;
  shape_x : Q;
  shape_y : Q
}.

(** A reach id as callers pass it: an [int] or a [str]. *)
Inductive ReachId : Type :=
| RidInt (z : Z)
| RidStr (s : string).

Definition py_str (reach_id : ReachId) : string :=
  match reach_id with
  | RidInt z => pretty z
  | RidStr s => s
  end.

(** The rows [sdf[(sdf.reach_id == reach_id) & (sdf.type == access_type)]]
    keeps, in table order. *)
Definition select_access (sdf : list AccessRow) (reach_id access_type : string)
  : list AccessRow :=
  filter (fun row => row_reach_id row = reach_id /\ row_type row = access_type) sdf.

(** After [reach_id = str(reach_id)] the test [type(reach_id) != str] is
    never true, so only the first guard can fire.  The two messages are
    formatted with two arguments for one placeholder: the first is used. *)
Definition _get_access_from_sdf (sdf : list AccessRow) (reach_id : ReachId)
    (access_type : string) : result AccessRow :=
  let reach_id := py_str reach_id in
  if negb (String.eqb access_type "putin") && negb (String.eqb access_type "takeout")
  then Err (TraceException "access_type must be either putin or takeout")
  else
    let access_sdf := select_access sdf reach_id access_type in
    if (length access_sdf =? 1)%nat then
      match access_sdf !! 0%nat with
      | Some row => Ok row
      | None => Err IndexError
      end
    else if (1 <? length access_sdf)%nat then
      Err (TraceException ("more than one " ++ access_type ++ " exists"))
    else
      Err (TraceException ("does not have a " ++ reach_id)).

Definition get_putin_from_sdf (sdf : list AccessRow) (reach_id : ReachId)
  : result AccessRow :=
  _get_access_from_sdf sdf reach_id "putin".

Definition get_takeout_from_sdf (sdf : list AccessRow) (reach_id : ReachId)
  : result AccessRow :=
  _get_access_from_sdf sdf reach_id "takeout".

(** ** The two pipelines *)

Record GeomDict : Type := mkGeomDict {
  putin_point : option Geometry;
  takeout_point : option Geometry;
  reach_line : option Geometry
}.

(** Reading a local variable of a function: a name the function assigns
    somewhere is local from its first line on, and has no value before
    the assignment runs. *)
Definition read_local {A} (name : string) (value : option A) : result A :=
  match value with
  | Some a => Ok a
  | None => Err (UnboundLocalError name)
  end.

Definition putin_cannot_snap : PyError :=
  TraceException "putin cannot be snapped to a hydroline".
Definition takeout_cannot_snap : PyError :=
  TraceException "takeout cannot be snapped to a hydroline".

(** Snap both ends, trace between them, convert: the last lines of both
    pipelines. *)
Definition snap_and_trace (G : Globals) (px py tx ty : Q)
    (check : SnapPoint -> SnapPoint -> result unit) (w : World)
  : result GeomDict * World :=
  let '(r1, w1) := get_epa_snap_point px py w in
  match r1 with
  | Err e => (Err e, w1)
  | Ok epa_putin =>
      let '(r2, w2) := get_epa_snap_point tx ty w1 in
      match r2 with
      | Err e => (Err e, w2)
      | Ok epa_takeout =>
          match check epa_putin epa_takeout with
          | Err e => (Err e, w2)
          | Ok _ =>
              let '(r3, w3) := get_epa_trace_response G epa_putin epa_takeout w2 in
              (epa_trace ← r3;
               line ← epa_trace_resp_to_esri_geom epa_trace;
               Ok (mkGeomDict (Some (snap_geometry epa_putin))
                              (Some (snap_geometry epa_takeout)) line), w3)
          end
      end
  end.

(** The two [if not ...: raise TraceException(...)] statements. *)
Definition check_snapped (epa_putin epa_takeout : SnapPoint) : result unit :=
  if negb (snap_point_truthy epa_putin) then Err putin_cannot_snap
  else if negb (snap_point_truthy epa_takeout) then Err takeout_cannot_snap
  else Ok tt.

(** In the function the two checks stand before the assignments of
    [epa_putin] and [epa_takeout], which are locals of the function. *)
Definition get_geometries_from_sdf_by_reach_id (G : Globals) (sdf : list AccessRow)
    (reach_id : ReachId) (w : World) : result GeomDict * World :=
  let epa_putin : option SnapPoint := None in
  let epa_takeout : option SnapPoint := None in
  let before_snap :=
    putin ← get_putin_from_sdf sdf reach_id;
    takeout ← get_takeout_from_sdf sdf reach_id;
    p ← read_local "epa_putin" epa_putin;
    _ ← (if negb (snap_point_truthy p) then Err putin_cannot_snap else Ok tt);
    t ← read_local "epa_takeout" epa_takeout;
    _ ← (if negb (snap_point_truthy t) then Err takeout_cannot_snap else Ok tt);
    Ok (putin, takeout) in
  match before_snap with
  | Err e => (Err e, w)
  | Ok (putin, takeout) =>
      snap_and_trace G (shape_x putin) (shape_y putin)
        (shape_x takeout) (shape_y takeout) (fun _ _ => Ok tt) w
  end.

(** The notebook cell that runs the pipeline at top level for two given
    coordinates: here the checks come after the snapping. *)
Definition trace_cell (G : Globals) (putin_x putin_y takeout_x takeout_y : Q)
    (w : World) : result GeomDict * World :=
  snap_and_trace G putin_x putin_y takeout_x takeout_y check_snapped w.

(** ** Publisher *)

Module Publisher.

(** A record of a remote feature collection: the [reach_id] attribute
    the collections are filtered by, the role of the record and its
    geometry. *)
Inductive Role : Type := Line | Centroid | PutIn | TakeOut.

Record Feature : Type := mkFeature {
  feature_reach_id : string;
  feature_role : Role;
  feature_geometry : option Geometry
}.

Abbreviation Layer := (list Feature).

(** Modelled from the spec: [layer.delete_features(where="reach_id =
    '<id>'")], the call [reach_update] makes before it publishes.  The
    specification says the collections are filtered by a [reach_id]
    attribute equality predicate. *)
Definition delete_features (reach_id : string) (layer : Layer) : Layer :=
  filter (fun f => feature_reach_id f <> reach_id) layer.

(** Modelled from the spec: the insert of new records into a
    collection; they come after the records already there. *)
Definition add_features (new : list Feature) (layer : Layer) : Layer :=
  (layer ++ new)%list.

(** Modelled from the spec: the upsert of one collection.  The
    publishing code lives in [reach_tools.py], which is not among the
    sources, and the cell that defines [reach_update] breaks off inside
    its call of [reach.publish].  The specification says: delete any
    existing record(s) for that id, then insert the new one. *)
Definition upsert (reach_id : string) (new : list Feature) (layer : Layer) : Layer :=
  add_features new (delete_features reach_id layer).

(** A reach as it is handed to the publish step, geometries populated. *)
Record Reach : Type := mkReach {
  reach_id : string;
  reach_geometry : option Geometry;
  reach_centroid : option Geometry;
  reach_putin : option Geometry;
  reach_takeout : option Geometry
}.

(** The three remote collections. *)
Record Collections : Type := mkCollections {
  lyr_reach_line : Layer;
  lyr_reach_centroid : Layer;
  lyr_reach_points : Layer
}.

(** Modelled from the spec: [Reach.publish] of [reach_tools.py], which
    is not among the sources.  The specification says: given a Reach
    with populated geometries, upserts three records (line, centroid,
    each point) into their respective remote collections, keyed by
    reach id. *)
Definition publish (reach : Reach) (c : Collections) : Collections :=
  let rid := reach_id reach in
  mkCollections
    (upsert rid [mkFeature rid Line (reach_geometry reach)] (lyr_reach_line c))
    (upsert rid [mkFeature rid Centroid (reach_centroid reach)] (lyr_reach_centroid c))
    (upsert rid [mkFeature rid PutIn (reach_putin reach);
                 mkFeature rid TakeOut (reach_takeout reach)] (lyr_reach_points c)).

End Publisher.

(** ** Vocabulary of the statements *)

(** The request [get_epa_trace_response] sends, each time the same. *)
Definition trace_request (putin_point takeout_point : SnapPoint) : Request :=
  mkRequest upstream_downstream_url (trace_query putin_point takeout_point).

(** The world after [n] more sends of [req] and the printing of [lines]. *)
Definition after_requests (n : nat) (req : Request) (lines : list string) (w : World)
  : World :=
  mkWorld (service w) (sent w ++ replicate n req) (stdout w ++ lines).

(** The lines the loop prints for the attempts [first .. first + n - 1]
    when each one reads the status [code]. *)
Definition failure_lines (first n : nat) (code : Z) : list string :=
  map (fun i => attempt_failed_line i code) (seq first n).

(** Number of requests a call has issued, from the worlds around it. *)
Definition requests_made (before after : World) : nat :=
  (length (sent after) - length (sent before))%nat.

(** A status that is not in 200..299. *)
Definition non_2xx (code : Z) : Prop := code < 200 \/ 300 <= code.

(** How a call ended, without the value it returned. *)
Definition ending {A} (r : result A) : option PyError :=
  match r with
  | Ok _ => None
  | Err e => Some e
  end.

(** [x] is the only element of [l] that satisfies [P], counted by
    position (a table may hold the same row twice). *)
Definition the_only {A} (P : A -> Prop) (l : list A) (x : A) : Prop :=
  exists i, l !! i = Some x /\ P x /\
    forall j y, l !! j = Some y -> P y -> j = i.

(** [row] is an access of kind [access_type] of the reach. *)
Definition is_access (reach_id : ReachId) (access_type : string) (row : AccessRow)
  : Prop :=
  row_reach_id row = py_str reach_id /\ row_type row = access_type.

(** The table holds exactly one such access, and it is [row]. *)
Definition the_only_access (sdf : list AccessRow) (reach_id : ReachId)
    (access_type : string) (row : AccessRow) : Prop :=
  the_only (is_access reach_id access_type) sdf row.

(** ** Sample data *)

(** The namespace of the notebook as it stands: no cell binds [r]. *)
Definition notebook_globals : Globals := mkGlobals None.

(** A namespace in which an earlier cell left a response of status
    [code] in [r]. *)
Definition stale_globals (code : Z) : Globals :=
  mkGlobals (Some (mkObject (Some code))).

(** Two snapped points, the put-in and take-out of the notebook's run. *)
Definition sample_putin : SnapPoint :=
  mkSnapPoint (GPoint (JNum (-121634402 # 1000000)) (JNum (45794848 # 1000000)) 4326)
              (JNum (51 # 1)) (JNum (23989319 # 1)).
Definition sample_takeout : SnapPoint :=
  mkSnapPoint (GPoint (JNum (-121645582 # 1000000)) (JNum (45718817 # 1000000)) 4326)
              (JNum (12 # 1)) (JNum (23989323 # 1)).

(** A fresh world whose service gives the same answer to every request. *)
Definition constant_service (answer : Response) : World :=
  mkWorld (fun _ _ => answer) [] [].

Definition server_error : Response := mkResponse 500 None.

(** A trace answer with the given traversed flowlines. *)
Definition trace_answer (flowlines : json) : Response :=
  mkResponse 200 (Some (JObj [("output", JObj [("flowlines_traversed", flowlines)])])).

(** A snapping answer that found nothing: the service sends no output. *)
Definition no_candidate_answer : Response :=
  mkResponse 200 (Some (JObj [("output", JNull)])).

(** A snapping answer with an end point but no flowline near it. *)
Definition no_flowline_answer : Response :=
  mkResponse 200 (Some (JObj [("output", JObj [
    ("end_point", JObj [("coordinates", JArr [JNum (-121634402 # 1000000);
                                              JNum (45794848 # 1000000)])]);
    ("ary_flowlines", JArr [])])])).

(** A snapping answer with one flowline. *)
Definition snapped_answer : Response :=
  mkResponse 200 (Some (JObj [("output", JObj [
    ("end_point", JObj [("coordinates", JArr [JNum (-121634000 # 1000000);
                                              JNum (45794000 # 1000000)])]);
    ("ary_flowlines", JArr [JObj [("comid", JNum (23989319 # 1));
                                  ("fmeasure", JNum (51 # 1))]])])])).

(** A snapping answer whose only flowline has a null feature id. *)
Definition null_comid_answer : Response :=
  mkResponse 200 (Some (JObj [("output", JObj [
    ("end_point", JObj [("coordinates", JArr [JNum (-121634000 # 1000000);
                                              JNum (45794000 # 1000000)])]);
    ("ary_flowlines", JArr [JObj [("comid", JNull);
                                  ("fmeasure", JNum (51 # 1))]])])])).

(** The access table of one reach. *)
Definition sample_sdf : list AccessRow := [
  mkAccessRow "2270" "putin" (-121634402 # 1000000) (45794848 # 1000000);
  mkAccessRow "2270" "takeout" (-121645582 # 1000000) (45718817 # 1000000);
  mkAccessRow "2156" "putin" (-121633000 # 1000000) (45780000 # 1000000)
].

(** Two traversed flowlines of two coordinates each. *)
Definition two_flowlines : json :=
  JArr [
    JObj [("comid", JNum (1 # 1));
          ("shape", JObj [("type", JStr "LineString");
                          ("coordinates", JArr [JArr [JNum (1 # 1); JNum (2 # 1)];
                                                JArr [JNum (3 # 1); JNum (4 # 1)]])])];
    JObj [("comid", JNum (2 # 1));
          ("shape", JObj [("type", JStr "LineString");
                          ("coordinates", JArr [JArr [JNum (3 # 1); JNum (4 # 1)];
                                                JArr [JNum (5 # 1); JNum (6 # 1)]])])]
  ].

(** A fresh world whose service answers the first two requests as the
    snapping service does and every later one as the trace service. *)
Definition scripted_service : World :=
  mkWorld (fun n _ => if (n <? 2)%nat then snapped_answer
                      else trace_answer two_flowlines)
          [] [].

(** A trace answer whose second flowline has no shape. *)
Definition broken_flowlines : json :=
  JArr [
    JObj [("comid", JNum (1 # 1));
          ("shape", JObj [("coordinates", JArr [JArr [JNum (1 # 1); JNum (2 # 1)]])])];
    JObj [("comid", JNum (2 # 1))];
    JObj [("comid", JNum (3 # 1));
          ("shape", JObj [("coordinates", JArr [JArr [JNum (5 # 1); JNum (6 # 1)]])])]
  ].

(** ** Properties *)

(** *** The definitions on small inputs *)

Example subscript_of_null : subscript JNull "end_point" = Err TypeError.
Proof. reflexivity. Qed.

Example subscript_missing_key :
  subscript (JObj [("output", JNull)]) "status" = Err (KeyError "status").
Proof. reflexivity. Qed.

Example first_of_empty_list : subscript_index (JArr []) 0 = Err IndexError.
Proof. reflexivity. Qed.

Example characters_of_text :
  chars_of "a€é" = [JStr "a"; JStr "€"; JStr "é"].
Proof. reflexivity. Qed.

Example second_character_of_one :
  subscript_index (JStr "€") 1 = Err IndexError.
Proof. reflexivity. Qed.

Example attempt_line_3 :
  attempt_failed_line 3 503 = "Attempt 03 failed with status code 503".
Proof. vm_compute. reflexivity. Qed.

Example attempt_line_10 :
  attempt_failed_line 10 404 = "Attempt 10 failed with status code 404".
Proof. vm_compute. reflexivity. Qed.

Example stale_200_stops_after_one_request :
  let out := get_epa_trace_response (stale_globals 200) sample_putin sample_takeout
               (constant_service server_error) in
  fst out = Ok server_error /\ length (sent (snd out)) = 1%nat /\ stdout (snd out) = [].
Proof. vm_compute. repeat split. Qed.

Example more_than_one_putin :
  get_putin_from_sdf (sample_sdf ++ sample_sdf) (RidStr "2156") =
  Err (TraceException "more than one putin exists").
Proof. vm_compute. reflexivity. Qed.

Example no_takeout :
  get_takeout_from_sdf sample_sdf (RidInt 2156) =
  Err (TraceException "does not have a 2156").
Proof. vm_compute. reflexivity. Qed.

Example bad_access_type :
  _get_access_from_sdf sample_sdf (RidInt 2270) "portage" =
  Err (TraceException "access_type must be either putin or takeout").
Proof. vm_compute. reflexivity. Qed.

(** *** JSON subscripts never raise [TraceException] *)

Lemma subscript_not_trace j k e :
  subscript j k = Err e -> is_trace_exception e = false.
Proof.
  destruct j; simpl; try (intros [= <-]; reflexivity).
  destruct (assoc k entries); intros [= <-]; reflexivity.
Qed.

Lemma subscript_index_not_trace j i e :
  subscript_index j i = Err e -> is_trace_exception e = false.
Proof.
  destruct j; simpl; try (intros [= <-]; reflexivity).
  - destruct (chars_of s !! i); intros [= <-]; reflexivity.
  - destruct (items !! i); intros [= <-]; reflexivity.
Qed.

(** *** The retry loop *)

Section TraceLoop.
Variables (G : Globals) (url : string) (queryString : gmap string param).

#[local] Abbreviation req := (mkRequest url queryString).

Lemma trace_loop_step st w :
  trace_loop G url queryString st w =
  if loop_condition st then
    let '(resp', w1) := requests_get url queryString w in
    match global_r G with
    | None => (Err (NameError "r"), w1)
    | Some r =>
        match obj_status_code r with
        | None => (Err (AttributeError "status_code"), w1)
        | Some code =>
            trace_loop G url queryString
              (mkTraceLocals (S (attempts st)) code (Some resp'))
              (if negb (Z.eqb code 200)
               then print (attempt_failed_line (S (attempts st)) code) w1
               else w1)
        end
    end
  else (Ok st, w).
Proof.
  funelim (trace_loop G url queryString st w);
    repeat match goal with
           | H : loop_condition _ = _ |- _ => rewrite H
           | H : global_r _ = _ |- _ => rewrite H
           | H : obj_status_code _ = _ |- _ => rewrite H
           | H : requests_get _ _ _ = _ |- _ => rewrite H
           end; reflexivity.
Qed.

Lemma trace_loop_stop st w :
  loop_condition st = false ->
  trace_loop G url queryString st w = (Ok st, w).
Proof. intros H. rewrite trace_loop_step, H. reflexivity. Qed.

(** [r] unbound: the first iteration raises, after its request. *)
Lemma trace_loop_name_error st w :
  loop_condition st = true ->
  global_r G = None ->
  trace_loop G url queryString st w =
  (Err (NameError "r"), after_requests 1 req [] w).
Proof.
  intros Hc Hr. rewrite trace_loop_step, Hc. simpl. rewrite Hr.
  unfold after_requests. simpl. rewrite app_nil_r. reflexivity.
Qed.

Lemma trace_loop_attribute_error st w r :
  loop_condition st = true ->
  global_r G = Some r ->
  obj_status_code r = None ->
  trace_loop G url queryString st w =
  (Err (AttributeError "status_code"), after_requests 1 req [] w).
Proof.
  intros Hc Hr Hs. rewrite trace_loop_step, Hc. simpl. rewrite Hr, Hs.
  unfold after_requests. simpl. rewrite app_nil_r. reflexivity.
Qed.

(** [r] bound to an object of status 200: one request, whatever came
    back. *)
Lemma trace_loop_stale_200 st w r :
  loop_condition st = true ->
  global_r G = Some r ->
  obj_status_code r = Some 200 ->
  trace_loop G url queryString st w =
  (Ok (mkTraceLocals (S (attempts st)) 200
         (Some (service w (length (sent w)) req))),
   after_requests 1 req [] w).
Proof.
  intros Hc Hr Hs. rewrite trace_loop_step, Hc. simpl. rewrite Hr, Hs.
  simpl. rewrite trace_loop_stop.
  - unfold after_requests. simpl. rewrite app_nil_r. reflexivity.
  - unfold loop_condition. simpl. apply andb_false_r.
Qed.

(** [r] bound to an object of another status: the loop runs until the
    count reaches 10, whatever came back. *)
Lemma trace_loop_stale_failure r code m :
  global_r G = Some r ->
  obj_status_code r = Some code ->
  code <> 200 ->
  forall st w,
    status_code_var st <> 200 ->
    (attempts st + S m = 10)%nat ->
    trace_loop G url queryString st w =
    (Ok (mkTraceLocals 10 code
           (Some (service w (length (sent w) + m)%nat req))),
     after_requests (S m) req (failure_lines (S (attempts st)) (S m) code) w).
Proof.
  intros Hr Hs Hcode.
  assert (Hneq : negb (Z.eqb code 200) = true)
    by (apply negb_true_iff, Z.eqb_neq, Hcode).
  induction m as [|m IH]; intros st w Hst Hatt;
    rewrite trace_loop_step.
  all: assert (Hc : loop_condition st = true)
    by (unfold loop_condition; apply andb_true_intro; split;
        [apply Nat.ltb_lt; lia | apply negb_true_iff, Z.eqb_neq, Hst]).
  all: rewrite Hc; simpl; rewrite Hr, Hs, Hneq.
  - rewrite trace_loop_stop.
    + replace (S (attempts st)) with 10%nat by lia.
      rewrite Nat.add_0_r. reflexivity.
    + unfold loop_condition. simpl.
      replace (S (attempts st)) with 10%nat by lia. reflexivity.
  - rewrite IH; simpl; [| exact Hcode | lia].
    unfold after_requests, failure_lines. simpl.
    rewrite length_app. simpl.
    replace (length (sent w) + 1 + m)%nat with (length (sent w) + S m)%nat by lia.
    rewrite <- !app_assoc. reflexivity.
Qed.

End TraceLoop.

(** *** What a call of [get_epa_trace_response] does *)

(** The whole behaviour of a call, by the binding of [r]. *)
Lemma get_epa_trace_response_run G putin_point takeout_point w :
  get_epa_trace_response G putin_point takeout_point w =
  let req := trace_request putin_point takeout_point in
  match global_r G with
  | None => (Err (NameError "r"), after_requests 1 req [] w)
  | Some r =>
      match obj_status_code r with
      | None => (Err (AttributeError "status_code"), after_requests 1 req [] w)
      | Some code =>
          if Z.eqb code 200
          then (Ok (service w (length (sent w)) req), after_requests 1 req [] w)
          else (Ok (service w (length (sent w) + 9)%nat req),
                after_requests 10 req (failure_lines 1 10 code) w)
      end
  end.
Proof.
  unfold get_epa_trace_response, trace_request.
  set (st0 := mkTraceLocals 0 0 None).
  assert (Hc : loop_condition st0 = true) by reflexivity.
  destruct (global_r G) as [r|] eqn:Hr.
  - destruct (obj_status_code r) as [code|] eqn:Hs.
    + destruct (Z.eqb code 200) eqn:Hcode.
      * apply Z.eqb_eq in Hcode. subst code.
        rewrite (trace_loop_stale_200 _ _ _ _ _ r Hc Hr Hs). reflexivity.
      * apply Z.eqb_neq in Hcode.
        rewrite (trace_loop_stale_failure _ _ _ r code 9 Hr Hs Hcode st0 w);
          [reflexivity | discriminate | reflexivity].
    + rewrite (trace_loop_attribute_error _ _ _ _ _ r Hc Hr Hs). reflexivity.
  - rewrite (trace_loop_name_error _ _ _ _ _ Hc Hr). reflexivity.
Qed.

Lemma requests_made_after n req lines w :
  requests_made w (after_requests n req lines w) = n.
Proof.
  unfold requests_made, after_requests. simpl.
  rewrite length_app, length_replicate. lia.
Qed.

(** A call issues at least one and at most ten requests. *)
Lemma get_epa_trace_response_attempts G putin_point takeout_point w :
  let n := requests_made w (snd (get_epa_trace_response G putin_point takeout_point w)) in
  (1 <= n <= 10)%nat.
Proof.
  rewrite get_epa_trace_response_run. simpl.
  destruct (global_r G) as [r|]; [destruct (obj_status_code r) as [code|];
    [destruct (Z.eqb code 200)|]|];
    simpl; rewrite requests_made_after; lia.
Qed.

(** C1, as stated, fails.  With a stale [r] of status 500 in the
    namespace and a service that answers 500 to every request, all ten
    attempts are made, all ten answers are non-2xx, and the call returns
    the last answer as an ordinary value: nothing is raised. *)
Lemma exhausted_budget_is_silent :
  let w := constant_service server_error in
  let req := trace_request sample_putin sample_takeout in
  let out := get_epa_trace_response (stale_globals 500) sample_putin sample_takeout w in
  requests_made w (snd out) = 10%nat /\
  (forall i, (i < 10)%nat -> non_2xx (status_code (service w i req))) /\
  fst out = Ok server_error /\
  is_err (fst out) = false.
Proof.
  cbv zeta. rewrite get_epa_trace_response_run. simpl.
  split; [apply requests_made_after |].
  split; [intros i _; right; simpl; lia |].
  split; reflexivity.
Qed.

(** C1, amended: when a call of [get_epa_trace_response] uses its whole
    budget of ten attempts (as it does when all ten answers are non-2xx
    and are seen as failures), it raises nothing: it returns the answer
    to the tenth request as its ordinary result. *)
Theorem full_budget_returns_last_response G putin_point takeout_point w :
  let out := get_epa_trace_response G putin_point takeout_point w in
  requests_made w (snd out) = 10%nat ->
  fst out = Ok (service w (length (sent w) + 9)%nat
                  (trace_request putin_point takeout_point)) /\
  is_err (fst out) = false.
Proof.
  rewrite get_epa_trace_response_run. simpl.
  destruct (global_r G) as [r|]; [destruct (obj_status_code r) as [code|];
    [destruct (Z.eqb code 200)|]|];
    simpl; rewrite requests_made_after; intros H;
    solve [discriminate H | split; reflexivity].
Qed.

Lemma full_budget_returns_last_response_witness :
  let w := constant_service server_error in
  let out := get_epa_trace_response (stale_globals 503) sample_putin sample_takeout w in
  fst out = Ok server_error /\ is_err (fst out) = false.
Proof.
  apply (full_budget_returns_last_response (stale_globals 503)
           sample_putin sample_takeout (constant_service server_error)).
  vm_compute. reflexivity.
Defined.

(** C2, evaluated where it breaks.  The service answers 200 to the first
    request (it fails N = 0 times).  In the notebook's namespace the call
    raises [NameError] after that request instead of returning the
    answer; with a stale [r] of status 500 it goes on to ten attempts. *)
Lemma success_at_first_attempt_is_lost :
  let w := constant_service (trace_answer (JArr [])) in
  let req := trace_request sample_putin sample_takeout in
  status_code (service w 0 req) = 200 /\
  get_epa_trace_response notebook_globals sample_putin sample_takeout w =
    (Err (NameError "r"), after_requests 1 req [] w) /\
  requests_made w
    (snd (get_epa_trace_response (stale_globals 500) sample_putin sample_takeout w))
    = 10%nat.
Proof.
  cbv zeta. rewrite !get_epa_trace_response_run. simpl.
  split; [reflexivity |]. split; [reflexivity |].
  apply requests_made_after.
Qed.

(** C9: every request a call of [get_epa_trace_response] sends (there is
    at least one) goes to the upstream/downstream service with
    navigation type "PP", the put-in's feature id and measure as the
    start parameters and the take-out's as the stop parameters. *)
Theorem trace_request_parameters G putin_point takeout_point w :
  let out := get_epa_trace_response G putin_point takeout_point w in
  let req := trace_request putin_point takeout_point in
  (exists n, (1 <= n)%nat /\ sent (snd out) = (sent w ++ replicate n req)%list) /\
  req_url req = upstream_downstream_url /\
  req_params req !! "pNavigationType" = Some (PStr "PP") /\
  req_params req !! "pStartComID" = Some (PVal (snap_id putin_point)) /\
  req_params req !! "pStartMeasure" = Some (PVal (snap_measure putin_point)) /\
  req_params req !! "pStopComid" = Some (PVal (snap_id takeout_point)) /\
  req_params req !! "pStopMeasure" = Some (PVal (snap_measure takeout_point)).
Proof.
  cbv zeta. split.
  - rewrite get_epa_trace_response_run. simpl.
    destruct (global_r G) as [r|]; [destruct (obj_status_code r) as [code|];
      [destruct (Z.eqb code 200)|]|];
      simpl;
      [exists 1%nat | exists 10%nat | exists 1%nat | exists 1%nat];
      (split; [lia | reflexivity]).
  - repeat split; reflexivity.
Qed.

(** C10: the status check reads the global [r], not the response.  In a
    namespace without [r] the call raises [NameError] in the first
    iteration, after exactly one request and before anything is printed;
    and in every namespace the requests made, the lines printed and the
    way the call ends are the same for any two services, so no status
    the service sends is ever looked at. *)
Theorem status_check_reads_global_r :
  (forall G putin_point takeout_point w,
     global_r G = None ->
     get_epa_trace_response G putin_point takeout_point w =
     (Err (NameError "r"),
      after_requests 1 (trace_request putin_point takeout_point) [] w)) /\
  (forall G putin_point takeout_point service1 service2 sent0 stdout0,
     let out1 := get_epa_trace_response G putin_point takeout_point
                   (mkWorld service1 sent0 stdout0) in
     let out2 := get_epa_trace_response G putin_point takeout_point
                   (mkWorld service2 sent0 stdout0) in
     ending (fst out1) = ending (fst out2) /\
     sent (snd out1) = sent (snd out2) /\
     stdout (snd out1) = stdout (snd out2)).
Proof.
  split.
  - intros G p t w Hr. rewrite get_epa_trace_response_run. simpl.
    rewrite Hr. reflexivity.
  - intros G p t s1 s2 sent0 stdout0. cbv zeta.
    rewrite !get_epa_trace_response_run. simpl.
    destruct (global_r G) as [r|]; [destruct (obj_status_code r) as [code|];
      [destruct (Z.eqb code 200)|]|];
      repeat split; reflexivity.
Qed.

Lemma status_check_reads_global_r_witness :
  get_epa_trace_response notebook_globals sample_putin sample_takeout
    (constant_service (trace_answer (JArr []))) =
  (Err (NameError "r"),
   after_requests 1 (trace_request sample_putin sample_takeout) []
     (constant_service (trace_answer (JArr [])))).
Proof.
  apply (proj1 status_check_reads_global_r). reflexivity.
Defined.

(** *** Trace result to geometry *)

Lemma comprehension_coordinates features segments :
  Forall2 (fun feature coords => feature_coordinates feature = Ok (JArr coords))
          features segments ->
  comprehension feature_coordinates features = Ok (map JArr segments).
Proof.
  induction 1 as [|feature coords features segments Hhead _ IH]; simpl.
  - reflexivity.
  - rewrite Hhead. simpl. rewrite IH. reflexivity.
Qed.

Lemma chain_from_iterable_lists (segments : list (list json)) :
  chain_from_iterable (map JArr segments) = Ok (concat segments).
Proof.
  unfold chain_from_iterable.
  assert (H : comprehension py_iter (map JArr segments) = Ok segments).
  { induction segments as [|seg segments IH]; simpl; [reflexivity |].
    rewrite IH. reflexivity. }
  rewrite H. reflexivity.
Qed.

Lemma flowlines_traversed_of trace_response rjson output traversed :
  body trace_response = Some rjson ->
  subscript rjson "output" = Ok output ->
  subscript output "flowlines_traversed" = Ok traversed ->
  flowlines_traversed trace_response = Ok traversed.
Proof.
  intros Hb Ho Ht. unfold flowlines_traversed, response_json.
  rewrite Hb. simpl. rewrite Ho. simpl. exact Ht.
Qed.




(** C5: when the answer's list of traversed flowlines is not empty and
    each flowline carries a coordinate list, the result is a polyline of
    exactly one path, the coordinate lists joined in the order of the
    answer, in spatial reference 4326. *)
Theorem nonempty_trace_is_concatenation trace_response rjson output features segments :
  body trace_response = Some rjson ->
  subscript rjson "output" = Ok output ->
  subscript output "flowlines_traversed" = Ok (JArr features) ->
  features <> [] ->
  Forall2 (fun feature coords => feature_coordinates feature = Ok (JArr coords))
          features segments ->
  epa_trace_resp_to_esri_geom trace_response =
  Ok (Some (GPolyline [concat segments] 4326)).
Proof.
  intros Hb Ho Ht Hne Hsegs. unfold epa_trace_resp_to_esri_geom.
  rewrite (flowlines_traversed_of _ _ _ _ Hb Ho Ht). simpl.
  destruct features as [|feature features]; [contradiction |]. simpl negb. cbv iota.
  change (py_iter (JArr (feature :: features)) ≫= _)
    with (comprehension feature_coordinates (feature :: features) ≫=
          (fun geom_lists => chain_from_iterable geom_lists ≫=
             (fun geom_list => Ok (Some (GPolyline [geom_list] 4326))))).
  rewrite (comprehension_coordinates _ _ Hsegs). simpl.
  rewrite chain_from_iterable_lists. reflexivity.
Qed.

Lemma nonempty_trace_is_concatenation_witness :
  epa_trace_resp_to_esri_geom (trace_answer two_flowlines) =
  Ok (Some (GPolyline [[JArr [JNum (1 # 1); JNum (2 # 1)];
                        JArr [JNum (3 # 1); JNum (4 # 1)];
                        JArr [JNum (3 # 1); JNum (4 # 1)];
                        JArr [JNum (5 # 1); JNum (6 # 1)]]] 4326)).
Proof.
  refine (nonempty_trace_is_concatenation (trace_answer two_flowlines)
            (JObj [("output", JObj [("flowlines_traversed", two_flowlines)])])
            (JObj [("flowlines_traversed", two_flowlines)])
            _
            [[JArr [JNum (1 # 1); JNum (2 # 1)]; JArr [JNum (3 # 1); JNum (4 # 1)]];
             [JArr [JNum (3 # 1); JNum (4 # 1)]; JArr [JNum (5 # 1); JNum (6 # 1)]]]
            eq_refl eq_refl eq_refl _ _).
  - discriminate.
  - repeat constructor.
Defined.

(** *** Point Snapper *)

(** Whatever the answer, a failure of the snap is a lookup error of the
    interpreter, never the notebook's [TraceException]. *)
Lemma snap_point_of_json_not_trace rjson e :
  snap_point_of_json rjson = Err e -> is_trace_exception e = false.
Proof.
  unfold snap_point_of_json.
  repeat match goal with
         | |- (?c ≫= _) = Err _ -> _ =>
             let H := fresh "H" in
             destruct c eqn:H; simpl;
             [| intros [= <-];
                first [ eapply subscript_not_trace; eassumption
                      | eapply subscript_index_not_trace; eassumption ] ]
         end.
  discriminate.
Qed.

Lemma get_epa_snap_point_not_trace x y w e :
  fst (get_epa_snap_point x y w) = Err e -> is_trace_exception e = false.
Proof.
  unfold get_epa_snap_point, get_epa_point_indexing, response_json. simpl.
  destruct (body _); simpl.
  - apply snap_point_of_json_not_trace.
  - intros [= <-]. reflexivity.
Qed.

(** The snapped dict has three keys, so the guards of the pipelines can
    not fire. *)
Lemma check_snapped_passes epa_putin epa_takeout :
  check_snapped epa_putin epa_takeout = Ok tt.
Proof. reflexivity. Qed.

(** The function form of the pipeline reads [epa_putin] before it
    assigns it: once both accesses are found it raises, before any
    request. *)
Lemma get_geometries_unbound_local G sdf reach_id w putin takeout :
  get_putin_from_sdf sdf reach_id = Ok putin ->
  get_takeout_from_sdf sdf reach_id = Ok takeout ->
  get_geometries_from_sdf_by_reach_id G sdf reach_id w =
  (Err (UnboundLocalError "epa_putin"), w).
Proof.
  intros Hp Ht. unfold get_geometries_from_sdf_by_reach_id.
  rewrite Hp, Ht. reflexivity.
Qed.

(** C8, as stated, fails.  The answer holds a snapped end point and a
    non-empty flowline array, the first flowline has a measure, and its
    [comid] is null: [get_epa_snap_point] returns a dict whose id is
    null. *)
Lemma null_comid_gives_null_id :
  let x := (-121634402 # 1000000)%Q in
  let y := (45794848 # 1000000)%Q in
  let w := constant_service null_comid_answer in
  (exists rjson output end_point cx cy first,
     fst (get_epa_point_indexing x y 5 false w) = Ok rjson /\
     subscript rjson "output" = Ok output /\
     subscript output "end_point" = Ok end_point /\
     subscript end_point "coordinates" = Ok (JArr [cx; cy]) /\
     subscript output "ary_flowlines" = Ok (JArr [first])) /\
  exists p, fst (get_epa_snap_point x y w) = Ok p /\ snap_id p = JNull.
Proof.
  cbv zeta. split.
  - do 6 eexists. repeat split; reflexivity.
  - eexists. split; reflexivity.
Qed.

(** C8, amended: when the indexing answer holds an end point with at
    least two coordinates and a non-empty flowline array whose first
    flowline has the entries [fmeasure] and [comid], [get_epa_snap_point]
    returns the first two coordinates as a point in spatial reference
    4326, with the first flowline's [fmeasure] as measure and its
    [comid] as id, each value as the service sent it: the function
    checks neither the range of the measure nor that the id is not
    null. *)
Theorem snap_point_copies_first_flowline
    x y w rjson output end_point cx cy rest first others fmeasure comid :
  fst (get_epa_point_indexing x y 5 false w) = Ok rjson ->
  subscript rjson "output" = Ok output ->
  subscript output "end_point" = Ok end_point ->
  subscript end_point "coordinates" = Ok (JArr (cx :: cy :: rest)) ->
  subscript output "ary_flowlines" = Ok (JArr (first :: others)) ->
  subscript first "fmeasure" = Ok fmeasure ->
  subscript first "comid" = Ok comid ->
  fst (get_epa_snap_point x y w) =
  Ok (mkSnapPoint (GPoint cx cy 4326) fmeasure comid).
Proof.
  intros Hj Ho He Hc Hf Hm Hi.
  unfold get_epa_snap_point.
  destruct (get_epa_point_indexing x y 5 false w) as [r w1].
  simpl in Hj. subst r. simpl. unfold snap_point_of_json.
  rewrite Ho. simpl. rewrite He. simpl. rewrite Hc. simpl.
  rewrite Hf. simpl. rewrite Hm. simpl. rewrite Hi. reflexivity.
Qed.

Lemma snap_point_copies_first_flowline_witness :
  fst (get_epa_snap_point (-121634402 # 1000000) (45794848 # 1000000)
         (constant_service snapped_answer)) =
  Ok (mkSnapPoint
        (GPoint (JNum (-121634000 # 1000000)) (JNum (45794000 # 1000000)) 4326)
        (JNum (51 # 1)) (JNum (23989319 # 1))).
Proof.
  refine (snap_point_copies_first_flowline
            (-121634402 # 1000000) (45794848 # 1000000)
            (constant_service snapped_answer)
            _ _ _ _ _ [] _ [] _ _
            eq_refl eq_refl eq_refl eq_refl eq_refl eq_refl eq_refl).
Defined.

(** C3, evaluated where it breaks.  When the snapping service finds no
    flowline, [get_epa_snap_point] fails inside a subscript ([TypeError]
    on a null output, [IndexError] on an empty flowline array), so the
    top-level pipeline stops with that error and sends no trace request,
    but the error is not the [TraceException] "putin cannot be snapped
    to a hydroline"; and the function form of the pipeline stops with
    [UnboundLocalError] before it asks the service at all. *)
Lemma no_candidate_is_not_reported_as_cannot_snap :
  let x := (-121634402 # 1000000)%Q in
  let y := (45794848 # 1000000)%Q in
  fst (get_epa_snap_point x y (constant_service no_candidate_answer)) = Err TypeError /\
  fst (get_epa_snap_point x y (constant_service no_flowline_answer)) = Err IndexError /\
  fst (trace_cell notebook_globals x y x y (constant_service no_candidate_answer))
    = Err TypeError /\
  length (sent (snd (trace_cell notebook_globals x y x y
                       (constant_service no_candidate_answer)))) = 1%nat /\
  get_geometries_from_sdf_by_reach_id notebook_globals sample_sdf (RidInt 2270)
    (constant_service no_candidate_answer)
    = (Err (UnboundLocalError "epa_putin"), constant_service no_candidate_answer).
Proof.
  cbv zeta. repeat split; vm_compute; reflexivity.
Qed.

(** *** Access lookup *)

Section Filter.
Context {A : Type} (P : A -> Prop) {Pdec : forall x, Decision (P x)}.

Lemma filter_nil_iff (l : list A) :
  filter P l = [] <-> forall i y, l !! i = Some y -> ~ P y.
Proof.
  induction l as [|a l IH].
  - split; [intros _ i y Hi; destruct i; discriminate | reflexivity].
  - rewrite filter_cons. destruct (decide (P a)) as [Ha|Ha].
    + split; [discriminate |]. intros Hno. destruct (Hno 0%nat a eq_refl Ha).
    + rewrite IH. split.
      * intros Hno [|i] y Hi; simpl in Hi; [congruence | eauto].
      * intros Hno i y Hi. apply (Hno (S i) y Hi).
Qed.

Lemma filter_singleton_iff (l : list A) (x : A) :
  filter P l = [x] <-> the_only P l x.
Proof.
  revert x. induction l as [|a l IH]; intros x.
  - split; [discriminate |]. intros (i & Hi & _). destruct i; discriminate.
  - rewrite filter_cons. destruct (decide (P a)) as [Ha|Ha].
    + split.
      * intros [= -> Hnil]. exists 0%nat. repeat split; [exact Ha |].
        intros [|j] y Hj Hy; [reflexivity |].
        destruct (proj1 (filter_nil_iff l) Hnil j y Hj Hy).
      * intros (i & Hi & Hx & Huniq).
        assert (i = 0%nat) as -> by (symmetry; apply (Huniq 0%nat a eq_refl Ha)).
        simpl in Hi. injection Hi as ->. f_equal.
        apply filter_nil_iff. intros j y Hj Hy.
        discriminate (Huniq (S j) y Hj Hy).
    + rewrite IH. split.
      * intros (i & Hi & Hx & Huniq). exists (S i).
        repeat split; [exact Hi | exact Hx |].
        intros [|j] y Hj Hy; simpl in Hj; [congruence |].
        f_equal. eapply Huniq; eassumption.
      * intros (i & Hi & Hx & Huniq).
        destruct i as [|i]; simpl in Hi; [congruence |].
        exists i. repeat split; [exact Hi | exact Hx |].
        intros j y Hj Hy. specialize (Huniq (S j) y Hj Hy). lia.
Qed.
End Filter.

(** With a valid access type the outcome is decided by the selected
    rows alone. *)
Lemma _get_access_from_sdf_cases sdf reach_id access_type :
  access_type = "putin" \/ access_type = "takeout" ->
  _get_access_from_sdf sdf reach_id access_type =
  match select_access sdf (py_str reach_id) access_type with
  | [] => Err (TraceException ("does not have a " ++ py_str reach_id))
  | [row] => Ok row
  | _ :: _ :: _ => Err (TraceException ("more than one " ++ access_type ++ " exists"))
  end.
Proof.
  intros Hty. unfold _get_access_from_sdf.
  assert (Hguard : negb (String.eqb access_type "putin") &&
                   negb (String.eqb access_type "takeout") = false)
    by (destruct Hty as [-> | ->]; reflexivity).
  rewrite Hguard.
  destruct (select_access sdf (py_str reach_id) access_type) as [|row [|second rows]];
    reflexivity.
Qed.

Lemma select_access_the_only sdf reach_id access_type row :
  select_access sdf (py_str reach_id) access_type = [row] <->
  the_only_access sdf reach_id access_type row.
Proof. apply (filter_singleton_iff (is_access reach_id access_type)). Qed.

(** C6: for a put-in or take-out lookup, [_get_access_from_sdf] returns
    a row exactly when the table holds one and only one access of that
    kind for the reach id, and that row is the one returned; when there
    is none or more than one it raises [TraceException]; so when both
    lookups of a reach succeed, the reach has exactly one put-in and
    exactly one take-out. *)
Theorem access_lookup_exactly_one sdf reach_id access_type :
  access_type = "putin" \/ access_type = "takeout" ->
  (forall row,
     _get_access_from_sdf sdf reach_id access_type = Ok row <->
     the_only_access sdf reach_id access_type row) /\
  ((forall row, ~ the_only_access sdf reach_id access_type row) ->
   exists msg,
     _get_access_from_sdf sdf reach_id access_type = Err (TraceException msg)) /\
  (forall putin takeout,
     get_putin_from_sdf sdf reach_id = Ok putin ->
     get_takeout_from_sdf sdf reach_id = Ok takeout ->
     the_only_access sdf reach_id "putin" putin /\
     the_only_access sdf reach_id "takeout" takeout).
Proof.
  intros Hty.
  assert (Hiff : forall ty row, ty = "putin" \/ ty = "takeout" ->
            _get_access_from_sdf sdf reach_id ty = Ok row <->
            the_only_access sdf reach_id ty row).
  { intros ty row Hv. rewrite <- select_access_the_only.
    rewrite (_get_access_from_sdf_cases _ _ _ Hv).
    destruct (select_access sdf (py_str reach_id) ty) as [|r [|r2 rs]];
      split; intros H; try discriminate; congruence. }
  split; [intros row; apply Hiff, Hty |]. split.
  - intros Hnone. rewrite (_get_access_from_sdf_cases _ _ _ Hty).
    destruct (select_access sdf (py_str reach_id) access_type)
      as [|r [|r2 rs]] eqn:Hsel;
      [eexists; reflexivity | | eexists; reflexivity].
    destruct (Hnone r). apply select_access_the_only, Hsel.
  - intros putin takeout Hp Ht. split.
    + apply (Hiff "putin"); [left; reflexivity | exact Hp].
    + apply (Hiff "takeout"); [right; reflexivity | exact Ht].
Qed.

Lemma access_lookup_exactly_one_witness :
  _get_access_from_sdf sample_sdf (RidInt 2270) "takeout" =
  Ok (mkAccessRow "2270" "takeout" (-121645582 # 1000000) (45718817 # 1000000)).
Proof.
  apply (proj1 (access_lookup_exactly_one sample_sdf (RidInt 2270) "takeout"
                  (or_intror eq_refl))).
  exists 1%nat. repeat split.
  intros [|[|[|j]]] other Hj [Hid Hty]; simpl in Hj; try discriminate;
    injection Hj as <-; try reflexivity; discriminate.
Defined.

(** *** Publisher *)

Module PublisherFacts.
Import Publisher.

Lemma delete_features_own rid (new : list Feature) :
  Forall (fun f => feature_reach_id f = rid) new ->
  delete_features rid new = [].
Proof.
  induction 1 as [|f new Hf _ IH]; [reflexivity |].
  unfold delete_features in *. rewrite filter_cons_False; [exact IH |].
  intros Hne. apply Hne, Hf.
Qed.

Lemma delete_features_twice rid (layer : Layer) :
  delete_features rid (delete_features rid layer) = delete_features rid layer.
Proof.
  unfold delete_features. induction layer as [|f layer IH]; [reflexivity |].
  rewrite (filter_cons _ f layer).
  destruct (decide (feature_reach_id f <> rid)) as [Hf|Hf].
  - rewrite filter_cons_True by exact Hf. rewrite IH. reflexivity.
  - exact IH.
Qed.

Lemma upsert_idempotent rid (new : list Feature) (layer : Layer) :
  Forall (fun f => feature_reach_id f = rid) new ->
  upsert rid new (upsert rid new layer) = upsert rid new layer.
Proof.
  intros Hnew. unfold upsert, add_features.
  unfold delete_features at 1. rewrite filter_app.
  fold (delete_features rid (delete_features rid layer)).
  fold (delete_features rid new).
  rewrite delete_features_twice, (delete_features_own _ _ Hnew), app_nil_r.
  reflexivity.
Qed.

(** C7: publishing a reach twice in a row leaves the line, centroid and
    point collections as publishing it once does. *)
Theorem publish_idempotent reach c :
  publish reach (publish reach c) = publish reach c.
Proof.
  unfold publish. simpl.
  rewrite !upsert_idempotent; [reflexivity | | |]; repeat constructor.
Qed.

End PublisherFacts.

(** ** Further properties of the code *)

(** *** The retry loop, in every namespace *)

(** Case analysis on the binding of [r], after the run lemma. *)
Ltac by_binding_of_r G :=
  rewrite ?get_epa_trace_response_run; cbv zeta;
  let r := fresh "r" in
  let code := fresh "code" in
  let Hr := fresh "Hr" in
  let Hs := fresh "Hs" in
  let Hc := fresh "Hcode" in
  destruct (global_r G) as [r|] eqn:Hr;
  [destruct (obj_status_code r) as [code|] eqn:Hs;
   [destruct (Z.eqb code 200) eqn:Hc|]|]; simpl.

(** X1: a call of [get_epa_trace_response] sends at least one and at
    most ten requests, all of them the same trace request; it prints at
    most one line per request, after what was printed before, and
    leaves the service as it was. *)
Theorem trace_attempt_budget G putin_point takeout_point w :
  exists n lines,
    (1 <= n <= 10)%nat /\ (length lines <= n)%nat /\
    snd (get_epa_trace_response G putin_point takeout_point w) =
    after_requests n (trace_request putin_point takeout_point) lines w.
Proof.
  by_binding_of_r G;
    [exists 1%nat, [] | exists 10%nat, (failure_lines 1 10 code)
     | exists 1%nat, [] | exists 1%nat, []];
    (split; [lia |]); (split; [simpl; lia | reflexivity]).
Qed.

(** X2: when a call of [get_epa_trace_response] ends in [NameError],
    the name is [r], which is unbound; when it ends in
    [AttributeError], the attribute is [status_code], which the object
    bound to [r] lacks; in both cases the error comes in the first
    iteration, after exactly one request and before anything is
    printed.  The call never raises [UnboundLocalError] ([resp] is
    assigned before [return resp] is reached) and never
    [TraceException]. *)
Theorem trace_raises_in_first_iteration G putin_point takeout_point w :
  let out := get_epa_trace_response G putin_point takeout_point w in
  (forall name,
     fst out = Err (NameError name) ->
     name = "r" /\ global_r G = None /\
     snd out = after_requests 1 (trace_request putin_point takeout_point) [] w) /\
  (forall attr,
     fst out = Err (AttributeError attr) ->
     attr = "status_code" /\
     (exists r, global_r G = Some r /\ obj_status_code r = None) /\
     snd out = after_requests 1 (trace_request putin_point takeout_point) [] w) /\
  (forall name, fst out <> Err (UnboundLocalError name)) /\
  (forall msg, fst out <> Err (TraceException msg)).
Proof.
  by_binding_of_r G; repeat split; intros; try discriminate;
    match goal with
    | H : Err _ = Err _ |- _ => injection H as <-
    end; try reflexivity.
  exists r. split; [reflexivity | exact Hs].
Qed.

Lemma trace_raises_in_first_iteration_witness :
  "status_code" = "status_code" /\
  (exists r, global_r (mkGlobals (Some (mkObject None))) = Some r /\
             obj_status_code r = None) /\
  snd (get_epa_trace_response (mkGlobals (Some (mkObject None)))
         sample_putin sample_takeout (constant_service server_error)) =
  after_requests 1 (trace_request sample_putin sample_takeout) []
    (constant_service server_error).
Proof.
  apply (proj1 (proj2 (trace_raises_in_first_iteration
                         (mkGlobals (Some (mkObject None)))
                         sample_putin sample_takeout
                         (constant_service server_error)))
           "status_code").
  vm_compute. reflexivity.
Defined.

(** X3: when [get_epa_trace_response] returns a response, it is the
    answer to the last request the call sent. *)
Theorem trace_returns_last_answer G putin_point takeout_point w response :
  let out := get_epa_trace_response G putin_point takeout_point w in
  fst out = Ok response ->
  response = service w (length (sent (snd out)) - 1)%nat
               (trace_request putin_point takeout_point).
Proof.
  by_binding_of_r G; intros [= <-]; rewrite length_app; simpl;
    f_equal; lia.
Qed.

Lemma trace_returns_last_answer_witness :
  server_error =
  service (constant_service server_error)
    (length (sent (snd (get_epa_trace_response (stale_globals 404)
                          sample_putin sample_takeout
                          (constant_service server_error)))) - 1)%nat
    (trace_request sample_putin sample_takeout).
Proof.
  apply (trace_returns_last_answer (stale_globals 404) sample_putin sample_takeout
           (constant_service server_error) server_error).
  vm_compute. reflexivity.
Defined.

(** X4: when the global [r] is an object of status 200, the call sends
    one request and returns its answer, whatever the status of that
    answer, and prints nothing: a failed answer is not retried. *)
Theorem stale_success_skips_retry G r putin_point takeout_point w :
  global_r G = Some r ->
  obj_status_code r = Some 200 ->
  get_epa_trace_response G putin_point takeout_point w =
  (Ok (service w (length (sent w)) (trace_request putin_point takeout_point)),
   after_requests 1 (trace_request putin_point takeout_point) [] w).
Proof.
  intros Hr Hs. rewrite get_epa_trace_response_run. cbv zeta.
  rewrite Hr, Hs. reflexivity.
Qed.

Lemma stale_success_skips_retry_witness :
  get_epa_trace_response (stale_globals 200) sample_putin sample_takeout
    (constant_service server_error) =
  (Ok server_error,
   after_requests 1 (trace_request sample_putin sample_takeout) []
     (constant_service server_error)).
Proof.
  apply (stale_success_skips_retry (stale_globals 200) (mkObject (Some 200))
           sample_putin sample_takeout (constant_service server_error));
    reflexivity.
Defined.

(** X5: when the global [r] is an object of a status other than 200,
    the call sends ten requests whatever the service answers, returns
    the tenth answer, and prints ten lines "Attempt 01" to "Attempt 10"
    that report the status of [r], not that of the answers. *)
Theorem stale_failure_exhausts_budget G r code putin_point takeout_point w :
  global_r G = Some r ->
  obj_status_code r = Some code ->
  code <> 200 ->
  get_epa_trace_response G putin_point takeout_point w =
  (Ok (service w (length (sent w) + 9)%nat (trace_request putin_point takeout_point)),
   after_requests 10 (trace_request putin_point takeout_point)
     (failure_lines 1 10 code) w).
Proof.
  intros Hr Hs Hcode. rewrite get_epa_trace_response_run. cbv zeta.
  rewrite Hr, Hs. apply Z.eqb_neq in Hcode. rewrite Hcode. reflexivity.
Qed.

Lemma stale_failure_exhausts_budget_witness :
  get_epa_trace_response (stale_globals 503) sample_putin sample_takeout
    (constant_service (trace_answer two_flowlines)) =
  (Ok (trace_answer two_flowlines),
   after_requests 10 (trace_request sample_putin sample_takeout)
     (failure_lines 1 10 503) (constant_service (trace_answer two_flowlines))).
Proof.
  apply (stale_failure_exhausts_budget (stale_globals 503) (mkObject (Some 503)) 503
           sample_putin sample_takeout
           (constant_service (trace_answer two_flowlines)));
    [reflexivity | reflexivity | discriminate].
Defined.

(** *** Errors of lookups and comprehensions *)

Lemma subscript_error j k e :
  subscript j k = Err e -> e = TypeError \/ e = KeyError k.
Proof.
  destruct j; simpl; try (intros [= <-]; left; reflexivity).
  destruct (assoc k entries); intros [= <-]. right. reflexivity.
Qed.

Lemma py_iter_error j e : py_iter j = Err e -> e = TypeError.
Proof. destruct j; simpl; intros [= <-]; reflexivity. Qed.

(** A comprehension fails with the error of one of its elements. *)
Lemma comprehension_error {A B} (f : A -> result B) xs e :
  comprehension f xs = Err e -> exists x, x ∈ xs /\ f x = Err e.
Proof.
  induction xs as [|x xs IH]; simpl; [discriminate |].
  destruct (f x) as [y|e1] eqn:Hx; simpl.
  - destruct (comprehension f xs) as [ys|e2]; simpl; [discriminate |].
    intros [= <-]. destruct (IH eq_refl) as (x' & Hin & Hx').
    exists x'. split; [right; exact Hin | exact Hx'].
  - intros [= <-]. exists x. split; [left | exact Hx].
Qed.

(** It fails with the error of the first element that fails. *)
Lemma comprehension_first_error {A B} (f : A -> result B) good ys bad rest e :
  Forall2 (fun x y => f x = Ok y) good ys ->
  f bad = Err e ->
  comprehension f (good ++ bad :: rest) = Err e.
Proof.
  intros Hgood Hbad. induction Hgood as [|x y good ys Hx _ IH]; simpl.
  - rewrite Hbad. reflexivity.
  - rewrite Hx. simpl. rewrite IH. reflexivity.
Qed.

Lemma feature_coordinates_error feature e :
  feature_coordinates feature = Err e ->
  e = TypeError \/ exists k, e = KeyError k.
Proof.
  unfold feature_coordinates.
  destruct (subscript feature "shape") as [shape|e1] eqn:H1; simpl.
  - intros H2. destruct (subscript_error _ _ _ H2) as [-> | ->]; eauto.
  - intros [= <-]. destruct (subscript_error _ _ _ H1) as [-> | ->]; eauto.
Qed.

Lemma flowlines_traversed_error trace_response e :
  flowlines_traversed trace_response = Err e ->
  e = ValueError \/ e = TypeError \/ exists k, e = KeyError k.
Proof.
  unfold flowlines_traversed, response_json.
  destruct (body trace_response) as [rjson|]; simpl; [| intros [= <-]; eauto].
  destruct (subscript rjson "output") as [output|e1] eqn:H1; simpl.
  - intros H2. destruct (subscript_error _ _ _ H2) as [-> | ->]; eauto.
  - intros [= <-]. destruct (subscript_error _ _ _ H1) as [-> | ->]; eauto.
Qed.

Lemma chain_from_iterable_error xs e :
  chain_from_iterable xs = Err e -> e = TypeError.
Proof.
  unfold chain_from_iterable.
  destruct (comprehension py_iter xs) as [pieces|e1] eqn:H; simpl; [discriminate |].
  intros [= <-]. destruct (comprehension_error _ _ _ H) as (x & _ & Hx).
  exact (py_iter_error _ _ Hx).
Qed.

(** *** Trace result to geometry, for any answer *)

(** The conversion once the flowline list is known to be true. *)
Lemma epa_trace_resp_to_esri_geom_truthy trace_response traversed :
  flowlines_traversed trace_response = Ok traversed ->
  truthy traversed = true ->
  epa_trace_resp_to_esri_geom trace_response =
  (features ← py_iter traversed;
   geom_lists ← comprehension feature_coordinates features;
   geom_list ← chain_from_iterable geom_lists;
   Ok (Some (GPolyline [geom_list] 4326))).
Proof.
  intros Ht Htrue. unfold epa_trace_resp_to_esri_geom.
  rewrite Ht. simpl. rewrite Htrue. reflexivity.
Qed.

Lemma epa_trace_resp_to_esri_geom_falsy trace_response traversed :
  flowlines_traversed trace_response = Ok traversed ->
  truthy traversed = false ->
  epa_trace_resp_to_esri_geom trace_response = Ok None.
Proof.
  intros Ht Hfalse. unfold epa_trace_resp_to_esri_geom.
  rewrite Ht. simpl. rewrite Hfalse. reflexivity.
Qed.

Lemma epa_trace_resp_to_esri_geom_error_kinds trace_response e :
  epa_trace_resp_to_esri_geom trace_response = Err e ->
  e = ValueError \/ e = TypeError \/ exists k, e = KeyError k.
Proof.
  destruct (flowlines_traversed trace_response) as [traversed|e0] eqn:Ht.
  - destruct (truthy traversed) eqn:Htrue.
    + rewrite (epa_trace_resp_to_esri_geom_truthy _ _ Ht Htrue).
      destruct (py_iter traversed) as [features|e1] eqn:H1; simpl;
        [| intros [= <-]; rewrite (py_iter_error _ _ H1); eauto].
      destruct (comprehension feature_coordinates features) as [geom_lists|e2] eqn:H2;
        simpl.
      * destruct (chain_from_iterable geom_lists) as [geom_list|e3] eqn:H3; simpl;
          [discriminate |].
        intros [= <-]. rewrite (chain_from_iterable_error _ _ H3). eauto.
      * intros [= <-]. destruct (comprehension_error _ _ _ H2) as (x & _ & Hx).
        destruct (feature_coordinates_error _ _ Hx) as [-> | ?]; eauto.
    + rewrite (epa_trace_resp_to_esri_geom_falsy _ _ Ht Htrue). discriminate.
  - unfold epa_trace_resp_to_esri_geom. rewrite Ht. simpl. intros [= <-].
    exact (flowlines_traversed_error _ _ Ht).
Qed.

(** X6: [epa_trace_resp_to_esri_geom] returns [None] exactly when the
    answer has an [output.flowlines_traversed] entry whose value is
    false in Python: an empty list, but also null, an empty object, an
    empty string, zero or [false]. *)
Theorem no_path_iff_falsy trace_response :
  epa_trace_resp_to_esri_geom trace_response = Ok None <->
  exists traversed,
    flowlines_traversed trace_response = Ok traversed /\ truthy traversed = false.
Proof.
  split.
  - destruct (flowlines_traversed trace_response) as [traversed|e0] eqn:Ht.
    + destruct (truthy traversed) eqn:Htrue; [| eauto].
      rewrite (epa_trace_resp_to_esri_geom_truthy _ _ Ht Htrue).
      destruct (py_iter traversed) as [features|]; simpl; [| discriminate].
      destruct (comprehension feature_coordinates features) as [geom_lists|];
        simpl; [| discriminate].
      destruct (chain_from_iterable geom_lists); simpl; discriminate.
    + unfold epa_trace_resp_to_esri_geom. rewrite Ht. discriminate.
  - intros (traversed & Ht & Hfalse).
    exact (epa_trace_resp_to_esri_geom_falsy _ _ Ht Hfalse).
Qed.

Lemma no_path_iff_falsy_witness :
  epa_trace_resp_to_esri_geom (trace_answer JNull) = Ok None.
Proof.
  apply (proj2 (no_path_iff_falsy (trace_answer JNull))).
  exists JNull. split; reflexivity.
Defined.

(** X7: every line [epa_trace_resp_to_esri_geom] returns is a polyline
    of exactly one path in spatial reference 4326, and it is returned
    only for a flowline list that is true in Python. *)
Theorem traced_line_has_one_path trace_response line :
  epa_trace_resp_to_esri_geom trace_response = Ok (Some line) ->
  exists traversed path,
    flowlines_traversed trace_response = Ok traversed /\
    truthy traversed = true /\
    line = GPolyline [path] 4326.
Proof.
  destruct (flowlines_traversed trace_response) as [traversed|e0] eqn:Ht.
  - destruct (truthy traversed) eqn:Htrue.
    + rewrite (epa_trace_resp_to_esri_geom_truthy _ _ Ht Htrue).
      destruct (py_iter traversed) as [features|]; simpl; [| discriminate].
      destruct (comprehension feature_coordinates features) as [geom_lists|];
        simpl; [| discriminate].
      destruct (chain_from_iterable geom_lists) as [path|]; simpl; [| discriminate].
      intros [= <-]. exists traversed, path.
      split; [reflexivity | split; [exact Htrue | reflexivity]].
    + rewrite (epa_trace_resp_to_esri_geom_falsy _ _ Ht Htrue). discriminate.
  - unfold epa_trace_resp_to_esri_geom. rewrite Ht. discriminate.
Qed.

Lemma traced_line_has_one_path_witness :
  exists traversed path,
    flowlines_traversed (trace_answer two_flowlines) = Ok traversed /\
    truthy traversed = true /\
    GPolyline [[JArr [JNum (1 # 1); JNum (2 # 1)];
                JArr [JNum (3 # 1); JNum (4 # 1)];
                JArr [JNum (3 # 1); JNum (4 # 1)];
                JArr [JNum (5 # 1); JNum (6 # 1)]]] 4326 = GPolyline [path] 4326.
Proof.
  apply (traced_line_has_one_path (trace_answer two_flowlines)).
  reflexivity.
Defined.

(** X8: when a traversed flowline has no coordinates to read (no
    [shape], or no [coordinates] in it), the conversion raises the error
    of the first such flowline: the flowlines before and after it do not
    make a partial line. *)
Theorem broken_segment_fails_whole_trace
    trace_response rjson output good coordinates bad rest e :
  body trace_response = Some rjson ->
  subscript rjson "output" = Ok output ->
  subscript output "flowlines_traversed" = Ok (JArr (good ++ bad :: rest)) ->
  Forall2 (fun feature coords => feature_coordinates feature = Ok coords)
          good coordinates ->
  feature_coordinates bad = Err e ->
  epa_trace_resp_to_esri_geom trace_response = Err e.
Proof.
  intros Hb Ho Ht Hgood Hbad.
  rewrite (epa_trace_resp_to_esri_geom_truthy _ (JArr (good ++ bad :: rest))).
  - simpl. rewrite (comprehension_first_error _ _ _ _ _ _ Hgood Hbad). reflexivity.
  - exact (flowlines_traversed_of _ _ _ _ Hb Ho Ht).
  - simpl. rewrite length_app. simpl.
    destruct (length good + S (length rest))%nat eqn:Hlen; [lia | reflexivity].
Qed.

Lemma broken_segment_fails_whole_trace_witness :
  epa_trace_resp_to_esri_geom (trace_answer broken_flowlines) = Err (KeyError "shape").
Proof.
  refine (broken_segment_fails_whole_trace (trace_answer broken_flowlines)
            (JObj [("output", JObj [("flowlines_traversed", broken_flowlines)])])
            (JObj [("flowlines_traversed", broken_flowlines)])
            [JObj [("comid", JNum (1 # 1));
                   ("shape", JObj [("coordinates",
                                    JArr [JArr [JNum (1 # 1); JNum (2 # 1)]])])]]
            [JArr [JArr [JNum (1 # 1); JNum (2 # 1)]]]
            (JObj [("comid", JNum (2 # 1))])
            [JObj [("comid", JNum (3 # 1));
                   ("shape", JObj [("coordinates",
                                    JArr [JArr [JNum (5 # 1); JNum (6 # 1)]])])]]
            (KeyError "shape")
            eq_refl eq_refl eq_refl _ eq_refl).
  repeat constructor.
Defined.

(** X9: the errors [epa_trace_resp_to_esri_geom] raises are those of
    reading the answer: [ValueError] for a body that is not JSON,
    [KeyError] for a missing entry, [TypeError] for a value of the wrong
    kind; it raises none of its own. *)
Theorem conversion_raises_only_lookup_errors trace_response e :
  epa_trace_resp_to_esri_geom trace_response = Err e ->
  e = ValueError \/ e = TypeError \/ exists k, e = KeyError k.
Proof. apply epa_trace_resp_to_esri_geom_error_kinds. Qed.

Lemma conversion_raises_only_lookup_errors_witness :
  ValueError = ValueError \/ ValueError = TypeError \/
  exists k, ValueError = KeyError k.
Proof.
  apply (conversion_raises_only_lookup_errors server_error ValueError).
  reflexivity.
Defined.

(** *** Point Snapper, for any answer *)

(** X10: whether or not the snap succeeds, [get_epa_snap_point] sends
    exactly one request, to the point indexing service, for the point
    (x, y) with indexing method DISTANCE, a maximum distance of 5, no
    flowline geometry and JSON output; it prints nothing. *)
Theorem snap_sends_one_indexing_request x y w :
  exists req,
    snd (get_epa_snap_point x y w) = after_requests 1 req [] w /\
    req_url req = point_indexing_url /\
    req_params req !! "pGeometry" = Some (PPoint x y) /\
    req_params req !! "pPointIndexingMethod" = Some (PStr "DISTANCE") /\
    req_params req !! "pPointIndexingMaxDist" = Some (PInt 5) /\
    req_params req !! "pReturnFlowlineGeomFlag" = Some (PBool false) /\
    req_params req !! "f" = Some (PStr "json").
Proof.
  eexists. split.
  - unfold get_epa_snap_point, get_epa_point_indexing, requests_get, after_requests.
    simpl. rewrite app_nil_r. reflexivity.
  - repeat split; reflexivity.
Qed.

(** X11: [get_epa_snap_point] returns a point exactly when the answer
    is JSON and its [output.end_point.coordinates] has entries 0 and 1
    and the first element of [output.ary_flowlines] has [fmeasure] and
    [comid]; the point then holds these four values as they are, with
    no check on them (a null [comid] gives a null id). *)
Theorem snap_succeeds_iff_lookups_resolve x y w p :
  fst (get_epa_snap_point x y w) = Ok p <->
  exists rjson output end_point coords cx cy flowlines first fmeasure comid,
    fst (get_epa_point_indexing x y 5 false w) = Ok rjson /\
    subscript rjson "output" = Ok output /\
    subscript output "end_point" = Ok end_point /\
    subscript end_point "coordinates" = Ok coords /\
    subscript_index coords 0 = Ok cx /\
    subscript_index coords 1 = Ok cy /\
    subscript output "ary_flowlines" = Ok flowlines /\
    subscript_index flowlines 0 = Ok first /\
    subscript first "fmeasure" = Ok fmeasure /\
    subscript first "comid" = Ok comid /\
    p = mkSnapPoint (GPoint cx cy 4326) fmeasure comid.
Proof.
  unfold get_epa_snap_point.
  destruct (get_epa_point_indexing x y 5 false w) as [r w1]. simpl.
  split.
  - destruct r as [rjson|e]; simpl; [| discriminate].
    unfold snap_point_of_json.
    destruct (subscript rjson "output") as [output|] eqn:Ho; simpl; [| discriminate].
    destruct (subscript output "end_point") as [end_point|] eqn:He; simpl;
      [| discriminate].
    destruct (subscript end_point "coordinates") as [coords|] eqn:Hc; simpl;
      [| discriminate].
    destruct (subscript_index coords 0) as [cx|] eqn:Hx; simpl; [| discriminate].
    destruct (subscript_index coords 1) as [cy|] eqn:Hy; simpl; [| discriminate].
    destruct (subscript output "ary_flowlines") as [flowlines|] eqn:Hf; simpl;
      [| discriminate].
    destruct (subscript_index flowlines 0) as [first|] eqn:H0; simpl; [| discriminate].
    destruct (subscript first "fmeasure") as [fmeasure|] eqn:Hm; simpl;
      [| discriminate].
    destruct (subscript first "comid") as [comid|] eqn:Hi; simpl; [| discriminate].
    intros [= <-].
    exists rjson, output, end_point, coords, cx, cy, flowlines, first, fmeasure, comid.
    repeat split; assumption.
  - intros (rjson & output & end_point & coords & cx & cy & flowlines & first &
            fmeasure & comid & Hj & Ho & He & Hc & Hx & Hy & Hf & H0 & Hm & Hi & ->).
    subst r. simpl. unfold snap_point_of_json.
    rewrite Ho. simpl. rewrite He. simpl. rewrite Hc. simpl. rewrite Hx. simpl.
    rewrite Hy. simpl. rewrite Hf. simpl. rewrite H0. simpl. rewrite Hm. simpl.
    rewrite Hi. reflexivity.
Qed.

Lemma snap_succeeds_iff_lookups_resolve_witness :
  fst (get_epa_snap_point (-121634402 # 1000000) (45794848 # 1000000)
         (constant_service
            (mkResponse 200 (Some (JObj [("output", JObj [
               ("end_point", JObj [("coordinates", JArr [JNum (1 # 1); JNum (2 # 1)])]);
               ("ary_flowlines", JArr [JObj [("comid", JNull);
                                             ("fmeasure", JNull)]])])])))))
  = Ok (mkSnapPoint (GPoint (JNum (1 # 1)) (JNum (2 # 1)) 4326) JNull JNull).
Proof.
  apply (proj2 (snap_succeeds_iff_lookups_resolve _ _ _ _)).
  do 10 eexists. repeat split; reflexivity.
Defined.

(** X12: when the indexing request is answered with JSON that holds
    no usable snap, [get_epa_snap_point] returns no point: a null
    [output] raises [TypeError]; an end point with fewer than two
    coordinates raises [IndexError]; an end point with two coordinates
    and an empty [ary_flowlines] raises [IndexError]; a first flowline
    without [fmeasure] raises [KeyError] for it. *)
Theorem snap_fails_on_unusable_answer x y w rjson :
  fst (get_epa_point_indexing x y 5 false w) = Ok rjson ->
  (subscript rjson "output" = Ok JNull ->
   fst (get_epa_snap_point x y w) = Err TypeError) /\
  (forall output end_point coords,
     subscript rjson "output" = Ok output ->
     subscript output "end_point" = Ok end_point ->
     subscript end_point "coordinates" = Ok (JArr coords) ->
     (length coords < 2)%nat ->
     fst (get_epa_snap_point x y w) = Err IndexError) /\
  (forall output end_point cx cy rest,
     subscript rjson "output" = Ok output ->
     subscript output "end_point" = Ok end_point ->
     subscript end_point "coordinates" = Ok (JArr (cx :: cy :: rest)) ->
     subscript output "ary_flowlines" = Ok (JArr []) ->
     fst (get_epa_snap_point x y w) = Err IndexError) /\
  (forall output end_point cx cy rest first others,
     subscript rjson "output" = Ok output ->
     subscript output "end_point" = Ok end_point ->
     subscript end_point "coordinates" = Ok (JArr (cx :: cy :: rest)) ->
     subscript output "ary_flowlines" = Ok (JArr (first :: others)) ->
     subscript first "fmeasure" = Err (KeyError "fmeasure") ->
     fst (get_epa_snap_point x y w) = Err (KeyError "fmeasure")).
Proof.
  intros Hj. unfold get_epa_snap_point.
  destruct (get_epa_point_indexing x y 5 false w) as [r w1].
  simpl in Hj. subst r. simpl. unfold snap_point_of_json.
  split; [| split; [| split]].
  - intros Ho. rewrite Ho. reflexivity.
  - intros output end_point coords Ho He Hc Hlen.
    rewrite Ho. simpl. rewrite He. simpl. rewrite Hc. simpl.
    destruct coords as [|c0 [|c1 coords]]; simpl in *; [reflexivity | reflexivity | lia].
  - intros output end_point cx cy rest Ho He Hc Hf.
    rewrite Ho. simpl. rewrite He. simpl. rewrite Hc. simpl.
    rewrite Hf. reflexivity.
  - intros output end_point cx cy rest first others Ho He Hc Hf Hm.
    rewrite Ho. simpl. rewrite He. simpl. rewrite Hc. simpl.
    rewrite Hf. simpl. rewrite Hm. reflexivity.
Qed.

Lemma snap_fails_on_unusable_answer_witness :
  fst (get_epa_snap_point (-121634402 # 1000000) (45794848 # 1000000)
         (constant_service no_candidate_answer)) = Err TypeError.
Proof.
  apply (proj1 (snap_fails_on_unusable_answer
                  (-121634402 # 1000000) (45794848 # 1000000)
                  (constant_service no_candidate_answer)
                  (JObj [("output", JNull)]) eq_refl)).
  reflexivity.
Defined.

(** *** Access lookup, for any table *)

Lemma _get_access_from_sdf_error sdf reach_id access_type e :
  _get_access_from_sdf sdf reach_id access_type = Err e ->
  exists msg, e = TraceException msg.
Proof.
  unfold _get_access_from_sdf.
  destruct (negb (String.eqb access_type "putin") &&
            negb (String.eqb access_type "takeout")); [intros [= <-]; eauto |].
  destruct (select_access sdf (py_str reach_id) access_type) as [|row [|second rows]];
    simpl; intros [= <-]; eauto.
Qed.

(** The outcome of a lookup is decided by the selected rows. *)
Lemma _get_access_from_sdf_selected sdf sdf' reach_id access_type :
  select_access sdf (py_str reach_id) access_type =
  select_access sdf' (py_str reach_id) access_type ->
  _get_access_from_sdf sdf reach_id access_type =
  _get_access_from_sdf sdf' reach_id access_type.
Proof. intros H. unfold _get_access_from_sdf. rewrite H. reflexivity. Qed.

(** X13: whatever the table, the reach id and the access type, the only
    exception [_get_access_from_sdf], [get_putin_from_sdf] and
    [get_takeout_from_sdf] raise is [TraceException]; the [iloc[0]] of
    the one-row case never fails. *)
Theorem access_lookup_raises_only_trace_exception sdf reach_id :
  (forall access_type e,
     _get_access_from_sdf sdf reach_id access_type = Err e ->
     exists msg, e = TraceException msg) /\
  (forall e, get_putin_from_sdf sdf reach_id = Err e ->
             exists msg, e = TraceException msg) /\
  (forall e, get_takeout_from_sdf sdf reach_id = Err e ->
             exists msg, e = TraceException msg).
Proof.
  repeat split; intros; eapply _get_access_from_sdf_error; eassumption.
Qed.

Lemma access_lookup_raises_only_trace_exception_witness :
  exists msg,
    TraceException "access_type must be either putin or takeout" = TraceException msg.
Proof.
  apply (proj1 (access_lookup_raises_only_trace_exception sample_sdf (RidInt 2270))
           "portage").
  reflexivity.
Defined.

(** X14: the outcome of a lookup does not depend on the order of the
    rows of the table. *)
Theorem access_lookup_ignores_row_order sdf sdf' reach_id access_type :
  sdf ≡ₚ sdf' ->
  _get_access_from_sdf sdf reach_id access_type =
  _get_access_from_sdf sdf' reach_id access_type.
Proof.
  intros Hperm. unfold _get_access_from_sdf.
  destruct (negb (String.eqb access_type "putin") &&
            negb (String.eqb access_type "takeout")); [reflexivity |].
  assert (Hsel : select_access sdf (py_str reach_id) access_type ≡ₚ
                 select_access sdf' (py_str reach_id) access_type)
    by (unfold select_access; rewrite Hperm; reflexivity).
  pose proof (Permutation_length Hsel) as Hlen.
  destruct (select_access sdf (py_str reach_id) access_type) as [|row [|second rows]].
  - apply Permutation_nil_l in Hsel. rewrite <- Hsel. reflexivity.
  - apply Permutation_singleton_l in Hsel. rewrite <- Hsel. reflexivity.
  - destruct (select_access sdf' (py_str reach_id) access_type)
      as [|row' [|second' rows']]; simpl in Hlen; try discriminate. reflexivity.
Qed.

Lemma access_lookup_ignores_row_order_witness :
  _get_access_from_sdf sample_sdf (RidInt 2270) "putin" =
  _get_access_from_sdf (reverse sample_sdf) (RidInt 2270) "putin".
Proof.
  apply (access_lookup_ignores_row_order sample_sdf (reverse sample_sdf)).
  symmetry. apply reverse_Permutation.
Defined.

(** X15: a row of another reach, or of another access type, has no
    effect on a lookup, wherever it stands in the table. *)
Theorem access_lookup_ignores_other_rows sdf1 sdf2 row reach_id access_type :
  ~ is_access reach_id access_type row ->
  _get_access_from_sdf (sdf1 ++ row :: sdf2) reach_id access_type =
  _get_access_from_sdf (sdf1 ++ sdf2) reach_id access_type.
Proof.
  intros Hrow. apply _get_access_from_sdf_selected.
  unfold select_access. rewrite !filter_app. f_equal.
  apply filter_cons_False. exact Hrow.
Qed.

Lemma access_lookup_ignores_other_rows_witness :
  _get_access_from_sdf
    (sample_sdf ++ mkAccessRow "9999" "putin" (1 # 1) (2 # 1) :: sample_sdf)
    (RidInt 2156) "putin" =
  _get_access_from_sdf (sample_sdf ++ sample_sdf) (RidInt 2156) "putin".
Proof.
  apply (access_lookup_ignores_other_rows sample_sdf sample_sdf
           (mkAccessRow "9999" "putin" (1 # 1) (2 # 1)) (RidInt 2156) "putin").
  intros [Hid _]. discriminate Hid.
Defined.

(** X16: when a lookup succeeds, one more access of the same kind for
    the same reach, anywhere in the table, makes it raise
    [TraceException] "more than one ... exists". *)
Theorem second_access_breaks_lookup sdf1 sdf2 row extra reach_id access_type :
  _get_access_from_sdf (sdf1 ++ sdf2) reach_id access_type = Ok row ->
  is_access reach_id access_type extra ->
  _get_access_from_sdf (sdf1 ++ extra :: sdf2) reach_id access_type =
  Err (TraceException ("more than one " ++ access_type ++ " exists")).
Proof.
  unfold _get_access_from_sdf.
  destruct (negb (String.eqb access_type "putin") &&
            negb (String.eqb access_type "takeout")); [discriminate |].
  unfold select_access. rewrite !filter_app.
  intros Hok Hextra. rewrite (filter_cons_True _ extra sdf2 Hextra).
  set (l1 := filter _ sdf1) in *. set (l2 := filter _ sdf2) in *.
  destruct (length (l1 ++ l2) =? 1)%nat eqn:Hone.
  - apply Nat.eqb_eq in Hone. rewrite length_app in Hone.
    assert (Hlen : length (l1 ++ extra :: l2) = 2%nat)
      by (rewrite length_app; simpl; lia).
    rewrite Hlen. reflexivity.
  - destruct (1 <? length (l1 ++ l2))%nat; discriminate.
Qed.

Lemma second_access_breaks_lookup_witness :
  _get_access_from_sdf
    ([] ++ mkAccessRow "2270" "takeout" (1 # 1) (2 # 1) :: sample_sdf)
    (RidStr "2270") "takeout" =
  Err (TraceException ("more than one " ++ "takeout" ++ " exists")).
Proof.
  apply (second_access_breaks_lookup [] sample_sdf
           (mkAccessRow "2270" "takeout" (-121645582 # 1000000) (45718817 # 1000000))
           (mkAccessRow "2270" "takeout" (1 # 1) (2 # 1)) (RidStr "2270") "takeout").
  - reflexivity.
  - split; reflexivity.
Defined.

(** X17: for a reach id that no row of the table carries, the put-in
    lookup and the take-out lookup raise the same [TraceException],
    "does not have a <reach id>": the message names the reach id and not
    the kind of access that is missing. *)
Theorem unknown_reach_reports_only_its_id sdf reach_id :
  (forall row, row ∈ sdf -> row_reach_id row <> py_str reach_id) ->
  get_putin_from_sdf sdf reach_id =
    Err (TraceException ("does not have a " ++ py_str reach_id)) /\
  get_takeout_from_sdf sdf reach_id =
    Err (TraceException ("does not have a " ++ py_str reach_id)).
Proof.
  intros Hnone.
  assert (Hsel : forall ty, select_access sdf (py_str reach_id) ty = []).
  { intros ty. apply (filter_nil_iff (is_access reach_id ty)).
    intros i row Hi [Hid _]. apply (Hnone row); [| exact Hid].
    eapply list_elem_of_lookup_2, Hi. }
  unfold get_putin_from_sdf, get_takeout_from_sdf.
  rewrite !_get_access_from_sdf_cases by (left + right; reflexivity).
  rewrite !Hsel. split; reflexivity.
Qed.

Lemma unknown_reach_reports_only_its_id_witness :
  get_putin_from_sdf sample_sdf (RidInt 3064) =
    Err (TraceException ("does not have a " ++ py_str (RidInt 3064))) /\
  get_takeout_from_sdf sample_sdf (RidInt 3064) =
    Err (TraceException ("does not have a " ++ py_str (RidInt 3064))).
Proof.
  apply (unknown_reach_reports_only_its_id sample_sdf (RidInt 3064)).
  intros row Hin Hid. unfold sample_sdf in Hin.
  repeat (apply elem_of_cons in Hin as [-> | Hin]; [discriminate Hid |]).
  apply elem_of_nil in Hin. exact Hin.
Defined.

(** *** The two pipelines *)

(** One step of a pipeline: reduce the matches on outcomes that are
    known, without unfolding the calls that are not. *)
Ltac step := cbv beta iota zeta; cbn [fst snd mbind result_bind].

Lemma get_epa_trace_response_error G putin_point takeout_point w e :
  fst (get_epa_trace_response G putin_point takeout_point w) = Err e ->
  e = NameError "r" \/ e = AttributeError "status_code".
Proof.
  rewrite get_epa_trace_response_run. cbv zeta.
  destruct (global_r G) as [r|]; [destruct (obj_status_code r) as [code|];
    [destruct (Z.eqb code 200)|]|]; simpl; intros [= <-]; eauto.
Qed.

(** X18: [get_geometries_from_sdf_by_reach_id] never returns a result
    and never contacts a service: it raises the [TraceException] of a
    failed access lookup or, when both accesses are found,
    [UnboundLocalError] for [epa_putin], and the world is as before. *)
Theorem get_geometries_never_succeeds G sdf reach_id w :
  exists e,
    get_geometries_from_sdf_by_reach_id G sdf reach_id w = (Err e, w) /\
    (e = UnboundLocalError "epa_putin" \/ exists msg, e = TraceException msg).
Proof.
  unfold get_geometries_from_sdf_by_reach_id, get_putin_from_sdf, get_takeout_from_sdf.
  destruct (_get_access_from_sdf sdf reach_id "putin") as [putin|e1] eqn:Hp; simpl.
  - destruct (_get_access_from_sdf sdf reach_id "takeout") as [takeout|e2] eqn:Ht;
      simpl.
    + eexists. split; [reflexivity | left; reflexivity].
    + exists e2. split; [reflexivity |].
      right. exact (_get_access_from_sdf_error _ _ _ _ Ht).
  - exists e1. split; [reflexivity |].
    right. exact (_get_access_from_sdf_error _ _ _ _ Hp).
Qed.

(** The top-level pipeline, by the outcome of its steps: the two guards
    drop out. *)
Lemma trace_cell_steps G px py tx ty w :
  trace_cell G px py tx ty w =
  let '(r1, w1) := get_epa_snap_point px py w in
  match r1 with
  | Err e => (Err e, w1)
  | Ok epa_putin =>
      let '(r2, w2) := get_epa_snap_point tx ty w1 in
      match r2 with
      | Err e => (Err e, w2)
      | Ok epa_takeout =>
          let '(r3, w3) := get_epa_trace_response G epa_putin epa_takeout w2 in
          (epa_trace ← r3;
           line ← epa_trace_resp_to_esri_geom epa_trace;
           Ok (mkGeomDict (Some (snap_geometry epa_putin))
                          (Some (snap_geometry epa_takeout)) line), w3)
      end
  end.
Proof.
  unfold trace_cell, snap_and_trace.
  destruct (get_epa_snap_point px py w) as [[p1|e1] w1]; [| reflexivity].
  destruct (get_epa_snap_point tx ty w1) as [[p2|e2] w2]; reflexivity.
Qed.

(** X19: the top-level pipeline never raises [TraceException]: neither
    of its two "cannot be snapped to a hydroline" guards can fire, and
    no step before or after them raises one. *)
Theorem trace_cell_never_reports_cannot_snap G px py tx ty w e :
  fst (trace_cell G px py tx ty w) = Err e ->
  is_trace_exception e = false.
Proof.
  rewrite trace_cell_steps.
  destruct (get_epa_snap_point px py w) as [[p1|e1] w1] eqn:H1; step.
  - destruct (get_epa_snap_point tx ty w1) as [[p2|e2] w2] eqn:H2; step.
    + destruct (get_epa_trace_response G p1 p2 w2) as [[response|e3] w3] eqn:H3; step.
      * destruct (epa_trace_resp_to_esri_geom response) as [line|e4] eqn:H4; step;
          [discriminate |].
        intros [= <-].
        destruct (epa_trace_resp_to_esri_geom_error_kinds _ _ H4)
          as [-> | [-> | [k ->]]]; reflexivity.
      * intros [= <-].
        destruct (get_epa_trace_response_error G p1 p2 w2 e3) as [-> | ->];
          [rewrite H3; reflexivity | reflexivity | reflexivity].
    + intros [= <-]. apply (get_epa_snap_point_not_trace tx ty w1).
      rewrite H2. reflexivity.
  - intros [= <-]. apply (get_epa_snap_point_not_trace px py w).
    rewrite H1. reflexivity.
Qed.

Lemma trace_cell_never_reports_cannot_snap_witness :
  is_trace_exception TypeError = false.
Proof.
  apply (trace_cell_never_reports_cannot_snap notebook_globals
           (-121634402 # 1000000) (45794848 # 1000000)
           (-121645582 # 1000000) (45718817 # 1000000)
           (constant_service no_candidate_answer) TypeError).
  reflexivity.
Defined.

(** X20: in a namespace without [r] the top-level pipeline never
    returns a result; when both snaps succeed it ends in [NameError]
    for [r] after the two snap requests and one trace request. *)
Theorem trace_cell_fails_without_r G px py tx ty w :
  global_r G = None ->
  (exists e, fst (trace_cell G px py tx ty w) = Err e) /\
  (forall p1 w1 p2 w2,
     get_epa_snap_point px py w = (Ok p1, w1) ->
     get_epa_snap_point tx ty w1 = (Ok p2, w2) ->
     trace_cell G px py tx ty w =
     (Err (NameError "r"), after_requests 1 (trace_request p1 p2) [] w2)).
Proof.
  intros Hr. split.
  - rewrite trace_cell_steps.
    destruct (get_epa_snap_point px py w) as [[p1|e1] w1]; step; [| eauto].
    destruct (get_epa_snap_point tx ty w1) as [[p2|e2] w2]; step; [| eauto].
    rewrite get_epa_trace_response_run. cbv zeta. rewrite Hr. step. eauto.
  - intros p1 w1 p2 w2 H1 H2. rewrite trace_cell_steps, H1, H2.
    rewrite get_epa_trace_response_run. cbv zeta. rewrite Hr. reflexivity.
Qed.

Lemma trace_cell_fails_without_r_witness :
  exists e, fst (trace_cell notebook_globals
                   (-121634402 # 1000000) (45794848 # 1000000)
                   (-121645582 # 1000000) (45718817 # 1000000)
                   scripted_service) = Err e.
Proof.
  apply (proj1 (trace_cell_fails_without_r notebook_globals
                  (-121634402 # 1000000) (45794848 # 1000000)
                  (-121645582 # 1000000) (45718817 # 1000000)
                  scripted_service eq_refl)).
Defined.

(** X21: when the top-level pipeline returns its dict, both snaps
    succeeded, the put-in and take-out points of the dict are the two
    snapped geometries, and its reach line is the conversion of the
    response the trace call returned for these two snapped points. *)
Theorem trace_cell_result_composition G px py tx ty w geom_dict :
  fst (trace_cell G px py tx ty w) = Ok geom_dict ->
  exists p1 w1 p2 w2 response,
    get_epa_snap_point px py w = (Ok p1, w1) /\
    get_epa_snap_point tx ty w1 = (Ok p2, w2) /\
    fst (get_epa_trace_response G p1 p2 w2) = Ok response /\
    epa_trace_resp_to_esri_geom response = Ok (reach_line geom_dict) /\
    putin_point geom_dict = Some (snap_geometry p1) /\
    takeout_point geom_dict = Some (snap_geometry p2).
Proof.
  rewrite trace_cell_steps.
  destruct (get_epa_snap_point px py w) as [[p1|e1] w1] eqn:H1; step; [| discriminate].
  destruct (get_epa_snap_point tx ty w1) as [[p2|e2] w2] eqn:H2; step; [| discriminate].
  destruct (get_epa_trace_response G p1 p2 w2) as [[response|e3] w3] eqn:H3; step;
    [| discriminate].
  destruct (epa_trace_resp_to_esri_geom response) as [line|e4] eqn:H4; step;
    [| discriminate].
  intros [= <-]. exists p1, w1, p2, w2, response. simpl.
  split; [reflexivity |]. split; [exact H2 |].
  split; [rewrite H3; reflexivity |]. split; [exact H4 |]. split; reflexivity.
Qed.

Lemma trace_cell_result_composition_witness :
  exists p1 w1 p2 w2 response,
    get_epa_snap_point (-121634402 # 1000000) (45794848 # 1000000) scripted_service
      = (Ok p1, w1) /\
    get_epa_snap_point (-121645582 # 1000000) (45718817 # 1000000) w1 = (Ok p2, w2) /\
    fst (get_epa_trace_response (stale_globals 200) p1 p2 w2) = Ok response /\
    epa_trace_resp_to_esri_geom response =
      Ok (Some (GPolyline [[JArr [JNum (1 # 1); JNum (2 # 1)];
                            JArr [JNum (3 # 1); JNum (4 # 1)];
                            JArr [JNum (3 # 1); JNum (4 # 1)];
                            JArr [JNum (5 # 1); JNum (6 # 1)]]] 4326)) /\
    Some (GPoint (JNum (-121634000 # 1000000)) (JNum (45794000 # 1000000)) 4326)
      = Some (snap_geometry p1) /\
    Some (GPoint (JNum (-121634000 # 1000000)) (JNum (45794000 # 1000000)) 4326)
      = Some (snap_geometry p2).
Proof.
  apply (trace_cell_result_composition (stale_globals 200)
           (-121634402 # 1000000) (45794848 # 1000000)
           (-121645582 # 1000000) (45718817 # 1000000) scripted_service
           (mkGeomDict
              (Some (GPoint (JNum (-121634000 # 1000000))
                            (JNum (45794000 # 1000000)) 4326))
              (Some (GPoint (JNum (-121634000 # 1000000))
                            (JNum (45794000 # 1000000)) 4326))
              (Some (GPolyline [[JArr [JNum (1 # 1); JNum (2 # 1)];
                                 JArr [JNum (3 # 1); JNum (4 # 1)];
                                 JArr [JNum (3 # 1); JNum (4 # 1)];
                                 JArr [JNum (5 # 1); JNum (6 # 1)]]] 4326)))).
  vm_compute. reflexivity.
Defined.
